(** * NWS warnings sensor (sensor.py): a shallow embedding

    The platform module [sensor.py] builds query parameters for the NWS
    alerts API, issues one GET per refresh and projects the returned GeoJSON
    features into the entity's state ([_state]) and its [updates] attribute.

    Embedding choices:
    - JSON values are the [json] inductive; JSON numbers are integers.
    - Python values of the entity's state and its [updates] attribute are
      kept as the code has them: [_state] is a JSON value (the empty string
      at construction, [None] = [JNull] during a poll), [_updates] is the
      empty list at construction and an insertion-ordered dict afterwards.
    - Coordinates are rationals ([Q]); the [%s] rendering of a float is left
      abstract as the section variable [float_str], and so are Home
      Assistant's validators [cv.entity_id] and [cv.icon] used by the
      platform schema.
    - The outside world (zone registry, clocks, HTTP outcome) is an [env]
      record read by the refresh; issued requests are logged in the world.
    - Exceptions are explicit: the refresh runs in a state-and-exception
      monad over the world. *)

From Stdlib Require Import ZArith QArith String List Bool Lia DecimalString Permutation.
Import ListNotations.
Open Scope Z_scope.
Set Warnings "-register-all".

(** ** JSON values and the Python operations the code applies to them *)

Inductive json : Type :=
| JNull
| JBool (b : bool)
| JNum (z : Z)
| JStr (s : string)
| JArr (l : list json)
| JObj (kvs : list (string * json)).

(** Python exceptions that can occur in [async_update]. *)
Inductive exn : Type :=
| TimeoutError      (* asyncio.TimeoutError *)
| ClientError       (* aiohttp.ClientError *)
| JSONDecodeError   (* body of a 200 response that is not JSON *)
| AttributeError    (* [.get] on a value that is not a dict *)
| TypeError.        (* iteration of a scalar, unhashable dict key *)

Inductive res (A : Type) : Type :=
| Ok (a : A)
| Raise (e : exn).
Arguments Ok {A} a.
Arguments Raise {A} e.

(** Python truthiness of a JSON-decoded value. *)
Definition truthy (j : json) : bool :=
  match j with
  | JNull => false
  | JBool b => b
  | JNum z => negb (z =? 0)
  | JStr s => negb (String.eqb s "")
  | JArr l => match l with [] => false | _ => true end
  | JObj kvs => match kvs with [] => false | _ => true end
  end.

(** Lookup in a decoded JSON object: [json.loads] keeps the last binding of
    a repeated key. *)
Definition obj_get (kvs : list (string * json)) (k : string) : option json :=
  fold_left (fun acc kv => if String.eqb (fst kv) k then Some (snd kv) else acc)
            kvs None.

(** [d.get(k, default)]: only dicts have [.get]. *)
Definition py_get (d : json) (k : string) (default : json) : res json :=
  match d with
  | JObj kvs => Ok (match obj_get kvs k with Some v => v | None => default end)
  | _ => Raise AttributeError
  end.

(** The items a [for] loop visits.  Iterating a dict visits its keys and
    iterating a string its characters: both are strings, on which the loop
    body's [.get] raises at the first item, so the exact key order (or the
    collapsing of repeated keys) is irrelevant. *)
Definition py_iter (j : json) : res (list json) :=
  match j with
  | JArr l => Ok l
  | JObj kvs => Ok (map (fun kv => JStr (fst kv)) kvs)
  | JStr s => Ok (map (fun c => JStr (String c EmptyString)) (list_ascii_of_string s))
  | _ => Raise TypeError
  end.

(** ** Python dicts keyed by JSON scalars

    Hashable JSON values are [None], booleans, numbers and strings; Python
    identifies [True] with [1] and [False] with [0] as dict keys. *)
Inductive hkey : Type :=
| HNone
| HNum (z : Z)
| HStr (s : string).

Definition key_norm (j : json) : option hkey :=
  match j with
  | JNull => Some HNone
  | JBool b => Some (HNum (if b then 1 else 0))
  | JNum z => Some (HNum z)
  | JStr s => Some (HStr s)
  | JArr _ | JObj _ => None
  end.

Definition hkey_eqb (a b : hkey) : bool :=
  match a, b with
  | HNone, HNone => true
  | HNum x, HNum y => Z.eqb x y
  | HStr x, HStr y => String.eqb x y
  | _, _ => false
  end.

(** Two keys select the same dict slot. *)
Definition same_key (a b : json) : bool :=
  match key_norm a, key_norm b with
  | Some x, Some y => hkey_eqb x y
  | _, _ => false
  end.

(** An insertion-ordered dict. *)
Definition pydict := list (json * json).

(** [d[k] = v]: an existing slot keeps its key and position and takes the
    new value; a new key is appended. *)
Fixpoint dict_set (k v : json) (d : pydict) : pydict :=
  match d with
  | [] => [(k, v)]
  | (k', v') :: d' =>
      if same_key k k' then (k', v) :: d' else (k', v') :: dict_set k v d'
  end.

(** [d.get(k)]. *)
Fixpoint dict_lookup (k : json) (d : pydict) : option json :=
  match d with
  | [] => None
  | (k', v') :: d' => if same_key k k' then Some v' else dict_lookup k d'
  end.

(** The value of the [_updates] attribute: [[]] from [__init__], a dict from
    the first successful poll on. *)
Inductive pyupdates : Type :=
| UList (l : list json)
| UDict (d : pydict).

(** ** Configuration, entity and environment *)

(** The [location] option: [{latitude, longitude}], both required and
    validated as floats by [cv.latitude] / [cv.longitude]. *)
Record location : Type := mk_location {
  loc_latitude : Q;
  loc_longitude : Q
}.

(** The validated platform configuration. *)
Record config : Type := mk_config {
  cfg_name : string;
  cfg_icon : string;
  cfg_severity : list string;
  cfg_message_type : list string;
  cfg_zone : option string;
  cfg_location : option location;
  cfg_forecast_days : option Z
}.

(** The instance attributes of [NWSWarningsEntity], plus the per-instance
    state of the [Throttle] decorator ([throttle[1]], a UTC time in
    seconds, [None] before the first unthrottled call). *)
Record entity : Type := mk_entity {
  e_name : string;
  e_icon : string;
  e_severity : string;
  e_message_type : string;
  e_zone : option string;
  e_location : option location;
  e_forecast_days : option Z;
  e_active_only : bool;
  e_state : json;
  e_updates : pyupdates;
  e_websession : bool;
  e_throttle : option Z
}.

(** [','.join(xs)]. *)
Definition py_join (sep : string) (xs : list string) : string :=
  String.concat sep xs.

(** Truthiness of the optional integer [forecast_days]. *)
Definition truthy_int (o : option Z) : bool :=
  match o with Some n => negb (n =? 0) | None => false end.

(** [NWSWarningsEntity.__init__]. *)
Definition init_entity (cfg : config) : entity := {|
  e_name := cfg_name cfg;
  e_icon := cfg_icon cfg;
  e_severity := py_join "," (cfg_severity cfg);
  e_message_type := py_join "," (cfg_message_type cfg);
  e_zone := cfg_zone cfg;
  e_location := cfg_location cfg;
  e_forecast_days := cfg_forecast_days cfg;
  e_active_only := negb (truthy_int (cfg_forecast_days cfg));
  e_state := JStr "";
  e_updates := UList [];
  e_websession := false;
  e_throttle := None
|}.

Definition set_state (v : json) (e : entity) : entity :=
  {| e_name := e_name e; e_icon := e_icon e; e_severity := e_severity e;
     e_message_type := e_message_type e; e_zone := e_zone e;
     e_location := e_location e; e_forecast_days := e_forecast_days e;
     e_active_only := e_active_only e; e_state := v; e_updates := e_updates e;
     e_websession := e_websession e; e_throttle := e_throttle e |}.

Definition set_updates (u : pyupdates) (e : entity) : entity :=
  {| e_name := e_name e; e_icon := e_icon e; e_severity := e_severity e;
     e_message_type := e_message_type e; e_zone := e_zone e;
     e_location := e_location e; e_forecast_days := e_forecast_days e;
     e_active_only := e_active_only e; e_state := e_state e; e_updates := u;
     e_websession := e_websession e; e_throttle := e_throttle e |}.

Definition set_websession (b : bool) (e : entity) : entity :=
  {| e_name := e_name e; e_icon := e_icon e; e_severity := e_severity e;
     e_message_type := e_message_type e; e_zone := e_zone e;
     e_location := e_location e; e_forecast_days := e_forecast_days e;
     e_active_only := e_active_only e; e_state := e_state e;
     e_updates := e_updates e; e_websession := b; e_throttle := e_throttle e |}.

Definition set_throttle (t : option Z) (e : entity) : entity :=
  {| e_name := e_name e; e_icon := e_icon e; e_severity := e_severity e;
     e_message_type := e_message_type e; e_zone := e_zone e;
     e_location := e_location e; e_forecast_days := e_forecast_days e;
     e_active_only := e_active_only e; e_state := e_state e;
     e_updates := e_updates e; e_websession := e_websession e;
     e_throttle := t |}.

(** A zone's state object in the registry; [attributes.get(...)] of the
    latitude and longitude ([None] when absent). *)
Record zone_state : Type := mk_zone_state {
  zs_latitude : option Q;
  zs_longitude : option Q
}.

(** An aware [datetime]: naive wall-clock seconds since 1970-01-01 00:00 and
    the fixed UTC offset in seconds of its [tzinfo].  Sub-second parts are
    dropped: the code truncates its times to midnight. *)
Record datetime : Type := mk_datetime {
  dt_local : Z;
  dt_offset : Z
}.

(** The instant denoted by an aware datetime, in UTC seconds; the
    difference of two aware datetimes is the difference of their instants. *)
Definition dt_instant (d : datetime) : Z := dt_local d - dt_offset d.

(** A query parameter value: a string, or the [isoformat()] of a datetime. *)
Inductive pval : Type :=
| PStr (s : string)
| PIso (d : datetime).

(** Truthiness of a parameter value; an ISO string is never empty. *)
Definition truthy_pval (v : pval) : bool :=
  match v with PStr s => negb (String.eqb s "") | PIso _ => true end.

Definition params := list (string * pval).

(** Dict assignment [params[k] = v] on a string-keyed dict. *)
Fixpoint param_set (k : string) (v : pval) (p : params) : params :=
  match p with
  | [] => [(k, v)]
  | (k', v') :: p' =>
      if String.eqb k k' then (k', v) :: p' else (k', v') :: param_set k v p'
  end.

Fixpoint param_lookup (k : string) (p : params) : option pval :=
  match p with
  | [] => None
  | (k', v') :: p' => if String.eqb k k' then Some v' else param_lookup k p'
  end.

(** An issued GET request. *)
Record request : Type := mk_request {
  req_url : string;
  req_params : params;
  req_headers : list (string * string)
}.

(** What the body read [await response.json()] produces. *)
Inductive body_outcome : Type :=
| BodyOk (j : json)
| BodyRaises (e : exn).

(** What [await self._websession.get(...)] produces. *)
Inductive http_outcome : Type :=
| GetRaises (e : exn)
| Got (status : Z) (body : body_outcome).

(** The outside world as one refresh sees it. *)
Record env : Type := mk_env {
  env_states : string -> option zone_state;  (* hass.states.get *)
  env_utc : Z;           (* utcnow(), seconds, read by Throttle *)
  env_now_local : Z;     (* datetime.now(), wall-clock seconds *)
  env_utc_offset : Z;    (* -(time.altzone or time.timezone), seconds *)
  env_http : http_outcome
}.

(** The world the refresh acts on: the entity and the log of issued requests. *)
Record world : Type := mk_world {
  w_ent : entity;
  w_reqs : list request
}.

(** ** The refresh monad: state over the world, with Python exceptions *)

Definition M (A : Type) : Type := world -> res A * world.

Definition ret {A : Type} (a : A) : M A := fun w => (Ok a, w).

Definition bind {A B : Type} (m : M A) (k : A -> M B) : M B :=
  fun w => match m w with
           | (Ok a, w') => k a w'
           | (Raise x, w') => (Raise x, w')
           end.

Notation "x <- c1 ;; c2" := (bind c1 (fun x => c2))
  (at level 61, c1 at next level, right associativity).
Notation "c1 ;; c2" := (bind c1 (fun _ : unit => c2))
  (at level 61, right associativity).

Definition raise {A : Type} (x : exn) : M A := fun w => (Raise x, w).

Definition lift {A : Type} (r : res A) : M A := fun w => (r, w).

Definition get_ent : M entity := fun w => (Ok (w_ent w), w).

Definition modify_ent (f : entity -> entity) : M unit :=
  fun w => (Ok tt, {| w_ent := f (w_ent w); w_reqs := w_reqs w |}).

(** The GET request leaves the process. *)
Definition issue (r : request) : M unit :=
  fun w => (Ok tt, {| w_ent := w_ent w; w_reqs := w_reqs w ++ [r] |}).

(** [try: m except ...]: the handler selects the caught exceptions;
    mutations made before the raise are kept, as in Python. *)
Definition try_except {A : Type} (m : M A) (h : exn -> option (M A)) : M A :=
  fun w => match m w with
           | (Raise x, w') => match h x with Some k => k w' | None => (Raise x, w') end
           | r => r
           end.

(** ** sensor.py *)

Section Sensor.

Local Open Scope string_scope.

(** [str()] of a float, as [%s] renders it. *)
Variable float_str : Q -> string.

Definition NWS_API_ENDPOINT : string := "https://api.weather.gov/alerts".
Definition USER_AGENT : string := "Home Assistant".
Definition PARAM_POINT : string := "point".
Definition PARAM_START : string := "start".
Definition PARAM_END : string := "end".
Definition PARAM_MESSAGE_TYPE : string := "message_type".
Definition PARAM_SEVERITY : string := "severity".

(** [MIN_TIME_BETWEEN_UPDATES = timedelta(minutes=5)], in seconds. *)
Definition MIN_TIME_BETWEEN_UPDATES : Z := 300.

Definition SECONDS_PER_DAY : Z := 86400.

(** [_get_headers]. *)
Definition get_headers : list (string * string) :=
  [("User-Agent", USER_AGENT); ("Accept", "application/geo+json")].

(** [_get_query_params]. *)
Definition get_query_params (severity message_type : string)
  (latitude longitude : Q) : params :=
  [(PARAM_MESSAGE_TYPE, PStr message_type);
   (PARAM_SEVERITY, PStr severity);
   (PARAM_POINT, PStr (float_str latitude ++ "," ++ float_str longitude)%string)].

(** [_append_time_params]. *)
Definition append_time_params (p : params) (start end_ : pval) : params :=
  if truthy_pval start && truthy_pval end_
  then param_set PARAM_END end_ (param_set PARAM_START start p)
  else p.

(** Truthiness of a coordinate: [None] and [0.0] are false. *)
Definition truthy_coord (o : option Q) : bool :=
  match o with Some q => negb (Qeq_bool q 0) | None => false end.

Definition truthy_str (o : option string) : bool :=
  match o with Some s => negb (String.eqb s "") | None => false end.

(** [NWSWarningsEntity._get_zone_lat_long]. *)
Definition get_zone_lat_long (en : env) (e : entity) : option Q * option Q :=
  match match e_zone e with Some z => env_states en z | None => None end with
  | None => (None, None)
  | Some zone =>
      let latitude := zs_latitude zone in
      let longitude := zs_longitude zone in
      if negb (truthy_coord latitude) || negb (truthy_coord longitude)
      then (None, None)
      else (latitude, longitude)
  end.

(** Lines 197-203 of [async_update]: the coordinates.  A configured
    [location] dict always holds both keys, hence is truthy. *)
Definition resolve_lat_long (en : env) (e : entity) : option Q * option Q :=
  match e_location e with
  | Some l => (Some (loc_latitude l), Some (loc_longitude l))
  | None => if truthy_str (e_zone e) then get_zone_lat_long en e else (None, None)
  end.

(** Lines 216-222: [start] and [end] of the forecast window.  [now] is the
    local wall clock minus one day; [start] is midnight of [now]'s date
    ([hour=0, second=0], minute and microsecond default to 0). *)
Definition forecast_window (en : env) (forecast_days : Z) : datetime * datetime :=
  let utc_offset := env_utc_offset en in
  let now := env_now_local en - SECONDS_PER_DAY in
  let start := {| dt_local := now / SECONDS_PER_DAY * SECONDS_PER_DAY;
                  dt_offset := utc_offset |} in
  let end_ := {| dt_local := dt_local start + (forecast_days + 1) * SECONDS_PER_DAY;
                 dt_offset := utc_offset |} in
  (start, end_).

(** Lines 208-227: the query parameters of the request. *)
Definition build_params (en : env) (e : entity) (latitude longitude : Q) : res params :=
  let p := get_query_params (e_severity e) (e_message_type e) latitude longitude in
  if negb (e_active_only e) then
    match e_forecast_days e with
    | Some n =>
        let '(start, end_) := forecast_window en n in
        Ok (append_time_params p (PIso start) (PIso end_))
    | None => Raise TypeError (* None + 1 *)
    end
  else Ok p.

(** Line 229. *)
Definition endpoint (e : entity) : string :=
  if negb (e_active_only e) then NWS_API_ENDPOINT
  else (NWS_API_ENDPOINT ++ "/active")%string.

(** [self._updates[sent] = update]. *)
Definition updates_setitem (k v : json) : M unit :=
  e <- get_ent;;
  match e_updates e with
  | UDict d =>
      match key_norm k with
      | Some _ => modify_ent (set_updates (UDict (dict_set k v d)))
      | None => raise TypeError
      end
  | UList _ => raise TypeError
  end.

(** The body of the [for feature in ...] loop, lines 248-253. *)
Definition record_feature (feature : json) : M unit :=
  props1 <- lift (py_get feature "properties" (JObj []));;
  update <- lift (py_get props1 "headline" JNull);;
  props2 <- lift (py_get feature "properties" (JObj []));;
  sent <- lift (py_get props2 "sent" JNull);;
  if truthy update && truthy sent then
    e <- get_ent;;
    (if negb (truthy (e_state e)) then modify_ent (set_state update) else ret tt);;
    updates_setitem sent update
  else ret tt.

Fixpoint process_features (fs : list json) : M unit :=
  match fs with
  | [] => ret tt
  | f :: fs' => record_feature f;; process_features fs'
  end.

(** Lines 239-257: the response, once the request is out. *)
Definition handle_response (en : env) : M bool :=
  match env_http en with
  | GetRaises x => raise x
  | Got status body =>
      if negb (Z.eqb status 200) then ret false else
      match body with
      | BodyRaises x => raise x
      | BodyOk j =>
          modify_ent (set_state JNull);;
          modify_ent (set_updates (UDict []));;
          feats <- lift (py_get j "features" (JArr []));;
          fs <- lift (py_iter feats);;
          process_features fs;;
          e <- get_ent;;
          modify_ent (set_state (if truthy (e_state e) then e_state e else JStr " "));;
          ret true
      end
  end.

(** The body of the [try] block, lines 236-257: the GET, then the response. *)
Definition fetch_and_project (en : env) (url : string) (p : params) : M bool :=
  issue {| req_url := url; req_params := p; req_headers := get_headers |};;
  handle_response en.

(** [except (asyncio.TimeoutError, aiohttp.ClientError): return False]. *)
Definition update_handler (x : exn) : option (M bool) :=
  match x with
  | TimeoutError | ClientError => Some (ret false)
  | _ => None
  end.

(** [NWSWarningsEntity.async_update], undecorated. *)
Definition async_update (en : env) : M bool :=
  e <- get_ent;;
  let '(latitude, longitude) := resolve_lat_long en e in
  if negb (truthy_coord latitude) || negb (truthy_coord longitude) then ret false else
  match latitude, longitude with
  | Some la, Some lo =>
      p <- lift (build_params en e la lo);;
      (if negb (e_websession e) then modify_ent (set_websession true) else ret tt);;
      try_except (fetch_and_project en (endpoint e) p) update_handler
  | _, _ => ret false
  end.

(** [homeassistant.util.Throttle(min_time)] around a method: the last call
    time is kept per instance; a call runs the method when there is none or
    when strictly more than [min_time] has passed since it, and then records
    the current time; otherwise the call returns [None] at once.  The time is
    recorded when the coroutine is created, before its body runs. *)
Definition throttle (min_time : Z) (method : env -> M bool) (en : env) : M (option bool) :=
  e <- get_ent;;
  let run := modify_ent (set_throttle (Some (env_utc en)));;
             r <- method en;;
             ret (Some r) in
  match e_throttle e with
  | None => run
  | Some last => if Z.gtb (env_utc en - last) min_time then run else ret None
  end.

(** The decorated [async_update], as the host scheduler invokes it. *)
Definition refresh (en : env) : M (option bool) :=
  throttle MIN_TIME_BETWEEN_UPDATES async_update en.

(** ** The platform schema, the setup and the exposed attributes *)

(** [cv.entity_id] and [cv.icon]: Home Assistant's validators, each
    returning the validated value or failing ([None] = [vol.Invalid]). *)
Variable cv_entity_id : string -> option string.
Variable cv_icon : string -> option string.

Definition VALID_MESSAGE_TYPE : list string := ["alert"; "update"].
Definition VALID_SEVERITY : list string :=
  ["unknown"; "minor"; "moderate"; "severe"; "extreme"].
Definition DEFAULT_MESSAGE_TYPE : list string := ["alert"; "update"].
Definition DEFAULT_SEVERITY : list string := ["moderate"; "severe"; "extreme"].
Definition DEFAULT_NAME : string := "NWS Warnings".
Definition DEFAULT_ICON : string := "mdi:alert".
Definition ATTR_UPDATES : string := "updates".
Definition ATTR_ATTRIBUTION : string := "attribution".

(** A YAML value given for a list option: nothing ([None]), a single string
    or a list of strings. *)
Inductive yaml_list : Type :=
| YNone
| YOne (s : string)
| YList (l : list string).

(** The platform's YAML configuration before validation; an absent key is
    [None].  [forecast_days] is given as an integer. *)
Record raw_config : Type := mk_raw_config {
  raw_name : option string;
  raw_severity : option yaml_list;
  raw_message_type : option yaml_list;
  raw_forecast_days : option Z;
  raw_zone : option string;
  raw_location : option location;
  raw_icon : option string
}.

(** [vol.Optional(key, default=d)]: the default fills an absent key. *)
Definition with_default {A : Type} (d : A) (o : option A) : A :=
  match o with Some a => a | None => d end.

(** [cv.ensure_list]. *)
Definition ensure_list (v : yaml_list) : list string :=
  match v with YNone => [] | YOne s => [s] | YList l => l end.

(** [[vol.In(container)]]: every element of the list is in [container]. *)
Definition validate_in (container : list string) (xs : list string) : option (list string) :=
  if forallb (fun x => existsb (String.eqb x) container) xs then Some xs else None.

(** [cv.positive_int] on an integer: [vol.Range(min=0)]. *)
Definition positive_int (n : Z) : option Z :=
  if Z.leb 0 n then Some n else None.

(** [vol.All(cv.positive_int, vol.Range(min=1, max=5))]. *)
Definition validate_forecast_days (n : Z) : option Z :=
  match positive_int n with
  | Some m => if Z.leb 1 m && Z.leb m 5 then Some m else None
  | None => None
  end.

(** [cv.latitude] and [cv.longitude] on a number: inclusive ranges. *)
Definition validate_latitude (q : Q) : option Q :=
  if Qle_bool (-90) q && Qle_bool q 90 then Some q else None.

Definition validate_longitude (q : Q) : option Q :=
  if Qle_bool (-180) q && Qle_bool q 180 then Some q else None.

(** The [location] sub-schema: both keys are required. *)
Definition validate_location (l : location) : option location :=
  match validate_latitude (loc_latitude l), validate_longitude (loc_longitude l) with
  | Some la, Some lo => Some {| loc_latitude := la; loc_longitude := lo |}
  | _, _ => None
  end.

(** A [vol.Optional] key without default: absent stays absent. *)
Definition validate_optional {A B : Type} (f : A -> option B) (o : option A)
  : option (option B) :=
  match o with
  | None => Some None
  | Some a => match f a with Some b => Some (Some b) | None => None end
  end.

(** [PLATFORM_SCHEMA]: [zone] and [location] are in one group of exclusion;
    the [platform] key of the base schema is not modelled. *)
Definition validate_config (raw : raw_config) : option config :=
  match raw_zone raw, raw_location raw with
  | Some _, Some _ => None
  | _, _ =>
      match validate_in VALID_SEVERITY
              (ensure_list (with_default (YList DEFAULT_SEVERITY) (raw_severity raw))),
            validate_in VALID_MESSAGE_TYPE
              (ensure_list (with_default (YList DEFAULT_MESSAGE_TYPE) (raw_message_type raw))),
            validate_optional validate_forecast_days (raw_forecast_days raw),
            validate_optional cv_entity_id (raw_zone raw),
            validate_optional validate_location (raw_location raw),
            cv_icon (with_default DEFAULT_ICON (raw_icon raw)) with
      | Some sev, Some mt, Some fd, Some zone, Some loc, Some icon =>
          Some {| cfg_name := with_default DEFAULT_NAME (raw_name raw);
                  cfg_icon := icon;
                  cfg_severity := sev;
                  cfg_message_type := mt;
                  cfg_zone := zone;
                  cfg_location := loc;
                  cfg_forecast_days := fd |}
      | _, _, _, _, _, _ => None
      end
  end.

(** [async_setup_platform]: the entities passed to [add_entities] and the
    returned value. *)
Definition async_setup_platform (cfg : config) : list entity * bool :=
  ([init_entity cfg], true).

(** A value of the attributes dict. *)
Inductive attr_value : Type :=
| AUpdates (u : pyupdates)
| AStr (s : string).

(** [NWSWarningsEntity.device_state_attributes]. *)
Definition device_state_attributes (e : entity) : list (string * attr_value) :=
  [(ATTR_UPDATES, AUpdates (e_updates e));
   (ATTR_ATTRIBUTION, AStr "Data provided by NWS")].

(** ** Readings of the spec used in the statements *)

(** The entity's [_active_only] flag agrees with its [_forecast_days], as
    [__init__] sets it; nothing else writes either attribute. *)
Definition well_formed (e : entity) : Prop :=
  e_active_only e = negb (truthy_int (e_forecast_days e)).

(** [(headline, sent)] of a feature, read as the loop reads them. *)
Definition feature_fields (f : json) : option (json * json) :=
  match py_get f "properties" (JObj []) with
  | Ok props =>
      match py_get props "headline" JNull, py_get props "sent" JNull with
      | Ok h, Ok s => Some (h, s)
      | _, _ => None
      end
  | Raise _ => None
  end.

(** A feature whose headline and sent are both present with a truthy
    value. *)
Definition complete (f : json) : bool :=
  match feature_fields f with
  | Some (h, s) => truthy h && truthy s
  | None => false
  end.

(** The spec's projection of a feature list: the value under key [k] is the
    headline of the last complete feature sent at [k] (last write wins),
    starting from [acc]. *)
Definition proj_step (k : json) (acc : option json) (f : json) : option json :=
  match feature_fields f with
  | Some (h, s) => if truthy h && truthy s && same_key k s then Some h else acc
  | None => acc
  end.

Definition proj_from (fs : list json) (k : json) (acc : option json) : option json :=
  fold_left (proj_step k) fs acc.

Definition projection (fs : list json) (k : json) : option json :=
  proj_from fs k None.

(** The headline of the first complete feature. *)
Fixpoint primary (fs : list json) : option json :=
  match fs with
  | [] => None
  | f :: fs' =>
      match feature_fields f with
      | Some (h, s) => if truthy h && truthy s then Some h else primary fs'
      | None => primary fs'
      end
  end.

(** [json.get('features', [])] and its iteration. *)
Definition body_features (j : json) : res (list json) :=
  match py_get j "features" (JArr []) with
  | Ok f => py_iter f
  | Raise x => Raise x
  end.

(** The snapshot the entity exposes: state and [updates]. *)
Definition snapshot (w : world) : json * pyupdates :=
  (e_state (w_ent w), e_updates (w_ent w)).

(** The world after [self._websession] has been created. *)
Definition open_session (w : world) : world :=
  if e_websession (w_ent w) then w
  else {| w_ent := set_websession true (w_ent w); w_reqs := w_reqs w |}.

(** A failing fetch: [get] times out or fails in transport, the status is
    not 200, or reading the body of a 200 response times out or fails. *)
Definition fetch_fails (h : http_outcome) : Prop :=
  h = GetRaises TimeoutError \/ h = GetRaises ClientError \/
  (exists status body, h = Got status body /\ status <> 200) \/
  (exists x, h = Got 200 (BodyRaises x) /\ (x = TimeoutError \/ x = ClientError)).

(** [m] never changes the observation [obs] of the world, whatever its
    outcome. *)
Definition keeps {A B : Type} (obs : world -> B) (m : M A) : Prop :=
  forall w, obs (snd (m w)) = obs w.

(** The throttle's last call time. *)
Definition throttle_of (w : world) : option Z := e_throttle (w_ent w).

(** The polling mode: [_active_only] and [_forecast_days]. *)
Definition mode_of (w : world) : bool * option Z :=
  (e_active_only (w_ent w), e_forecast_days (w_ent w)).

(** A feature the loop body gets through: a dict whose [properties] is a
    dict (or absent), and whose [sent], when both fields are truthy, is
    hashable. *)
Definition feature_ok (f : json) : bool :=
  match feature_fields f with
  | Some (h, s) =>
      negb (truthy h && truthy s) || match key_norm s with Some _ => true | None => false end
  | None => false
  end.

(** No two keys of the list select the same dict slot. *)
Fixpoint distinct_keys (ks : list json) : bool :=
  match ks with
  | [] => true
  | k :: ks' => negb (existsb (same_key k) ks') && distinct_keys ks'
  end.

(** ** Sample inputs *)

(** [%s] of the integral sample coordinates, e.g. ["40.0"]. *)
Definition sample_float_str (q : Q) : string :=
  NilEmpty.string_of_int (Z.to_int (Qnum q)) ++ ".0".

Definition sample_config (forecast_days : option Z) (loc : option location)
  (zone : option string) : config := {|
  cfg_name := "NWS Warnings";
  cfg_icon := "mdi:alert";
  cfg_severity := ["moderate"; "severe"; "extreme"];
  cfg_message_type := ["alert"; "update"];
  cfg_zone := zone;
  cfg_location := loc;
  cfg_forecast_days := forecast_days
|}.

Definition sample_location : location :=
  {| loc_latitude := 40%Q; loc_longitude := (-105)%Q |}.

(** A registry that knows [zone.home] at the sample location. *)
Definition sample_states (z : string) : option zone_state :=
  if String.eqb z "zone.home"
  then Some {| zs_latitude := Some 40%Q; zs_longitude := Some (-105)%Q |}
  else None.

Definition sample_env (utc now_local : Z) (http : http_outcome) : env := {|
  env_states := sample_states;
  env_utc := utc;
  env_now_local := now_local;
  env_utc_offset := -25200;
  env_http := http
|}.

Definition sample_feature (sent headline : string) : json :=
  JObj [("properties", JObj [("headline", JStr headline); ("sent", JStr sent)])].

Definition sample_body (fs : list json) : json :=
  JObj [("type", JStr "FeatureCollection"); ("features", JArr fs)].

Definition fresh_world (cfg : config) : world :=
  {| w_ent := init_entity cfg; w_reqs := [] |}.

Definition static_config : config := sample_config None (Some sample_location) None.
Definition forecast_config : config := sample_config (Some 2) (Some sample_location) None.
Definition missing_zone_config : config := sample_config None None (Some "zone.other").
Definition equator_config : config :=
  sample_config None (Some {| loc_latitude := 0; loc_longitude := (-105)%Q |}) None.

Definition alerts_F1 : list json :=
  [sample_feature "2026-10-17T08:00:00-06:00" "Wind Advisory"].
Definition alerts_F2 : list json :=
  [sample_feature "2026-10-18T06:00:00-06:00" "Winter Storm Warning";
   sample_feature "2026-10-18T07:00:00-06:00" "Flood Watch"].

(** A YAML configuration giving only [forecast_days], [location] and
    [zone]. *)
Definition sample_raw (forecast_days : option Z) (loc : option location)
  (zone : option string) : raw_config := {|
  raw_name := None;
  raw_severity := None;
  raw_message_type := None;
  raw_forecast_days := forecast_days;
  raw_zone := zone;
  raw_location := loc;
  raw_icon := None
|}.

(** [cv.entity_id] and [cv.icon] on values they accept unchanged. *)
Definition accept_str (s : string) : option string := Some s.

(** A 200 response carrying the given features. *)
Definition ok_env (fs : list json) : env :=
  sample_env 0 0 (Got 200 (BodyOk (sample_body fs))).

(** ** Lemmas: dicts *)

Lemma hkey_eqb_eq (a b : hkey) : hkey_eqb a b = true <-> a = b.
Proof.
  destruct a, b; simpl; split; intro H; try discriminate; try reflexivity.
  - apply Z.eqb_eq in H; subst; reflexivity.
  - inversion H; subst; apply Z.eqb_refl.
  - apply String.eqb_eq in H; subst; reflexivity.
  - inversion H; subst; apply String.eqb_refl.
Qed.

Lemma same_key_spec (a b : json) :
  same_key a b = true <-> exists h, key_norm a = Some h /\ key_norm b = Some h.
Proof.
  unfold same_key; destruct (key_norm a) as [x|], (key_norm b) as [y|];
    split; intro H; try discriminate.
  - apply hkey_eqb_eq in H; subst; eauto.
  - destruct H as [h [H1 H2]]; inversion H1; inversion H2; subst;
      apply hkey_eqb_eq; reflexivity.
  - destruct H as [h [H1 H2]]; discriminate.
  - destruct H as [h [H1 H2]]; discriminate.
  - destruct H as [h [H1 H2]]; discriminate.
Qed.

Lemma same_key_refl (a : json) : key_norm a <> None -> same_key a a = true.
Proof.
  intro H; apply same_key_spec; destruct (key_norm a) as [h|]; [eauto|congruence].
Qed.

Lemma same_key_sym (a b : json) : same_key a b = same_key b a.
Proof.
  destruct (same_key a b) eqn:E1, (same_key b a) eqn:E2; auto.
  - apply same_key_spec in E1; destruct E1 as [h [H1 H2]].
    assert (same_key b a = true) by (apply same_key_spec; eauto); congruence.
  - apply same_key_spec in E2; destruct E2 as [h [H1 H2]].
    assert (same_key a b = true) by (apply same_key_spec; eauto); congruence.
Qed.

(** Keys in the same slot are interchangeable on the right. *)
Lemma same_key_right (a b c : json) :
  same_key a b = true -> same_key c a = same_key c b.
Proof.
  intro Hab; apply same_key_spec in Hab; destruct Hab as [h [Ha Hb]].
  unfold same_key; rewrite Ha, Hb; reflexivity.
Qed.

Lemma dict_lookup_set (k k0 v : json) (d : pydict) :
  key_norm k0 <> None ->
  dict_lookup k (dict_set k0 v d) = if same_key k k0 then Some v else dict_lookup k d.
Proof.
  intro Hk0; induction d as [|[k' v'] d IH]; simpl.
  - reflexivity.
  - destruct (same_key k0 k') eqn:E0; simpl.
    + rewrite (same_key_right _ _ k E0). destruct (same_key k k'); reflexivity.
    + rewrite IH. destruct (same_key k k') eqn:E1; [|reflexivity].
      destruct (same_key k k0) eqn:E2; [|reflexivity].
      rewrite same_key_sym in E2.
      pose proof (same_key_right _ _ k' E2) as H.
      rewrite same_key_sym in E1; rewrite E1, same_key_sym in H; congruence.
Qed.

(** ** Lemmas: the feature loop *)

Lemma record_feature_ok (f : json) (w w1 : world) (d : pydict) :
  e_updates (w_ent w) = UDict d ->
  record_feature f w = (Ok tt, w1) ->
  exists d1,
    e_updates (w_ent w1) = UDict d1 /\
    (forall k, dict_lookup k d1 = proj_step k (dict_lookup k d) f) /\
    e_state (w_ent w1) =
      (if truthy (e_state (w_ent w)) then e_state (w_ent w) else
       match feature_fields f with
       | Some (h, s) => if truthy h && truthy s then h else e_state (w_ent w)
       | None => e_state (w_ent w)
       end) /\
    w_reqs w1 = w_reqs w /\
    (forall h s, feature_fields f = Some (h, s) -> truthy h && truthy s = true ->
                 key_norm s <> None).
Proof.
  intros Hd Hrun.
  unfold record_feature, updates_setitem, bind, lift, get_ent, modify_ent, ret,
    raise in Hrun.
  unfold proj_step, feature_fields.
  destruct (py_get f "properties" (JObj [])) as [props|x]; [|discriminate].
  destruct (py_get props "headline" JNull) as [h|x]; [|discriminate].
  destruct (py_get props "sent" JNull) as [s|x]; [|discriminate].
  destruct (truthy h && truthy s) eqn:Ec.
  - destruct (truthy (e_state (w_ent w))) eqn:Est; simpl in Hrun;
      rewrite Hd in Hrun;
      destruct (key_norm s) as [hk|] eqn:Ek; try discriminate;
      inversion Hrun; subst; clear Hrun; simpl;
      exists (dict_set s h d); (repeat split);
      try (intros h' s' Hf _; inversion Hf; subst; congruence);
      try (intro k; rewrite dict_lookup_set by congruence;
           destruct (same_key k s); reflexivity);
      rewrite Est; reflexivity.
  - inversion Hrun; subst; clear Hrun.
    exists d; split; [exact Hd|]; split; [intro k; reflexivity|].
    split; [destruct (truthy (e_state (w_ent w1))); reflexivity|].
    split; [reflexivity|].
    intros h' s' Hf Hc; inversion Hf; subst; congruence.
Qed.

Lemma process_features_ok (fs : list json) : forall (w w' : world) (d : pydict),
  e_updates (w_ent w) = UDict d ->
  process_features fs w = (Ok tt, w') ->
  exists d',
    e_updates (w_ent w') = UDict d' /\
    (forall k, dict_lookup k d' = proj_from fs k (dict_lookup k d)) /\
    e_state (w_ent w') =
      (if truthy (e_state (w_ent w)) then e_state (w_ent w) else
       match primary fs with Some h => h | None => e_state (w_ent w) end) /\
    w_reqs w' = w_reqs w /\
    (forall f h s, In f fs -> feature_fields f = Some (h, s) ->
                   truthy h && truthy s = true -> key_norm s <> None).
Proof.
  induction fs as [|f fs IH]; intros w w' d Hd Hrun.
  - inversion Hrun; subst. exists d; split; [exact Hd|]; split; [reflexivity|].
    split; [destruct (truthy (e_state (w_ent w'))); reflexivity|].
    split; [reflexivity|]. intros f h s [].
  - simpl in Hrun. unfold bind at 1 in Hrun.
    destruct (record_feature f w) as [[[]|x] w1] eqn:Ef; [|discriminate].
    destruct (record_feature_ok f w w1 d Hd Ef)
      as [d1 [Hd1 [Hl1 [Hs1 [Hr1 Hk1]]]]].
    destruct (IH w1 w' d1 Hd1 Hrun) as [d' [Hd' [Hl' [Hs' [Hr' Hk']]]]].
    exists d'; split; [exact Hd'|]; split.
    { intro k; rewrite Hl', Hl1; reflexivity. }
    split.
    { rewrite Hs', Hs1; simpl.
      destruct (truthy (e_state (w_ent w))) eqn:Est; [rewrite Est; reflexivity|].
      destruct (feature_fields f) as [[h s]|]; [|rewrite Est; reflexivity].
      destruct (truthy h && truthy s) eqn:Ec; [|rewrite Est; reflexivity].
      apply andb_prop in Ec; destruct Ec as [Eh _]; rewrite Eh; reflexivity. }
    split; [congruence|].
    intros g h s [<-|Hin]; [apply Hk1|apply Hk'; exact Hin].
Qed.

(** ** Lemmas: the steps of [async_update] *)

Lemma async_update_unresolved (en : env) (w : world) :
  truthy_coord (fst (resolve_lat_long en (w_ent w))) = false \/
  truthy_coord (snd (resolve_lat_long en (w_ent w))) = false ->
  async_update en w = (Ok false, w).
Proof.
  intro H; unfold async_update, bind, get_ent; cbn beta iota.
  destruct (resolve_lat_long en (w_ent w)) as [lat lon]; simpl in H.
  destruct H as [H|H]; rewrite H; [reflexivity|].
  rewrite orb_true_r; reflexivity.
Qed.

Lemma truthy_coord_some (o : option Q) :
  truthy_coord o = true -> exists q, o = Some q.
Proof. destruct o as [q|]; simpl; [eauto|discriminate]. Qed.

Lemma async_update_resolved (en : env) (w : world) (la lo : Q) (p : params) :
  resolve_lat_long en (w_ent w) = (Some la, Some lo) ->
  truthy_coord (Some la) = true -> truthy_coord (Some lo) = true ->
  build_params en (w_ent w) la lo = Ok p ->
  async_update en w =
    try_except (fetch_and_project en (endpoint (w_ent w)) p) update_handler
               (open_session w).
Proof.
  intros Hres Hla Hlo Hp; unfold async_update, bind, get_ent; cbn beta iota.
  rewrite Hres, Hla, Hlo; simpl. unfold lift; rewrite Hp.
  unfold open_session, modify_ent, ret.
  destruct (e_websession (w_ent w)); reflexivity.
Qed.

Lemma build_params_active (en : env) (e : entity) (la lo : Q) :
  e_active_only e = true ->
  build_params en e la lo =
    Ok (get_query_params (e_severity e) (e_message_type e) la lo).
Proof. intro H; unfold build_params; rewrite H; reflexivity. Qed.

Lemma build_params_forecast (en : env) (e : entity) (la lo : Q) (n : Z) :
  well_formed e -> e_forecast_days e = Some n -> n <> 0 ->
  build_params en e la lo =
    Ok (let '(start, end_) := forecast_window en n in
        append_time_params
          (get_query_params (e_severity e) (e_message_type e) la lo)
          (PIso start) (PIso end_)).
Proof.
  intros Hwf Hn Hn0; unfold build_params, well_formed in *.
  rewrite Hwf, Hn; simpl.
  rewrite (proj2 (Z.eqb_neq n 0) Hn0); simpl.
  destruct (forecast_window en n); reflexivity.
Qed.

Lemma build_params_ok (en : env) (e : entity) (la lo : Q) :
  well_formed e -> exists p, build_params en e la lo = Ok p.
Proof.
  intro Hwf; destruct (e_active_only e) eqn:Ea.
  - eexists; apply build_params_active; exact Ea.
  - unfold well_formed in Hwf; rewrite Ea in Hwf.
    destruct (e_forecast_days e) as [n|] eqn:En; simpl in Hwf; [|discriminate].
    destruct (Z.eqb_spec n 0) as [E|E]; [discriminate|].
    eexists; apply (build_params_forecast en e la lo n); auto.
    unfold well_formed; rewrite Ea, En; simpl.
    rewrite (proj2 (Z.eqb_neq n 0) E); reflexivity.
Qed.

(** A failing fetch is caught: [False] is returned, the request stays
    issued and the entity is left as it was. *)
Lemma fetch_failure_caught (en : env) (url : string) (p : params) (w : world) :
  fetch_fails (env_http en) ->
  try_except (fetch_and_project en url p) update_handler w =
    (Ok false, {| w_ent := w_ent w;
                  w_reqs := w_reqs w ++
                    [{| req_url := url; req_params := p; req_headers := get_headers |}] |}).
Proof.
  intro Hf; unfold try_except, fetch_and_project, handle_response, bind, issue.
  destruct Hf as [H|[H|[[status [body [H Hs]]]|[x [H [Hx|Hx]]]]]];
    rewrite H; subst; simpl; try reflexivity.
  apply Z.eqb_neq in Hs; rewrite Hs; reflexivity.
Qed.

Lemma open_session_snapshot (w : world) : snapshot (open_session w) = snapshot w.
Proof. unfold open_session; destruct (e_websession (w_ent w)); reflexivity. Qed.

Lemma open_session_reqs (w : world) : w_reqs (open_session w) = w_reqs w.
Proof. unfold open_session; destruct (e_websession (w_ent w)); reflexivity. Qed.

(** ** Lemmas: the projection read from the spec *)

Lemma primary_truthy (fs : list json) (h : json) :
  primary fs = Some h -> truthy h = true.
Proof.
  induction fs as [|f fs IH]; simpl; [discriminate|].
  destruct (feature_fields f) as [[h' s']|]; [|exact IH].
  destruct (truthy h' && truthy s') eqn:E; [|exact IH].
  intro Hh; inversion Hh; subst; apply andb_prop in E; tauto.
Qed.

Lemma proj_from_some (fs : list json) (k : json) :
  forall acc, acc <> None -> proj_from fs k acc <> None.
Proof.
  induction fs as [|f fs IH]; intros acc Hacc; simpl; [exact Hacc|].
  apply IH; unfold proj_step.
  destruct (feature_fields f) as [[h s]|]; [|exact Hacc].
  destruct (truthy h && truthy s && same_key k s); [discriminate|exact Hacc].
Qed.

(** A complete feature sent at [k] gives [k] a value. *)
Lemma proj_from_hit (fs : list json) (f h s k : json) :
  In f fs -> feature_fields f = Some (h, s) -> truthy h && truthy s = true ->
  same_key k s = true -> forall acc, proj_from fs k acc <> None.
Proof.
  intros Hin Hf Hc Hk; induction fs as [|g fs IH]; [destruct Hin|].
  intro acc; destruct Hin as [<-|Hin].
  - simpl; apply proj_from_some; unfold proj_step; rewrite Hf, Hc, Hk; discriminate.
  - simpl; apply IH; exact Hin.
Qed.

Lemma proj_step_incomplete (k f : json) (acc : option json) :
  complete f = false -> proj_step k acc f = acc.
Proof.
  unfold complete, proj_step; destruct (feature_fields f) as [[h s]|]; [|reflexivity].
  intro E; rewrite E; reflexivity.
Qed.

Lemma proj_from_filter (fs : list json) (k : json) :
  forall acc, proj_from (filter complete fs) k acc = proj_from fs k acc.
Proof.
  induction fs as [|f fs IH]; intro acc; simpl; [reflexivity|].
  destruct (complete f) eqn:E; simpl.
  - apply IH.
  - rewrite proj_step_incomplete by exact E; apply IH.
Qed.

Lemma primary_filter (fs : list json) : primary (filter complete fs) = primary fs.
Proof.
  induction fs as [|f fs IH]; simpl; [reflexivity|].
  unfold complete; destruct (feature_fields f) as [[h s]|] eqn:Ef.
  - destruct (truthy h && truthy s) eqn:Ec; simpl.
    + rewrite Ef, Ec; reflexivity.
    + exact IH.
  - exact IH.
Qed.

(** A caught or uncaught exception never yields [True]. *)
Ltac handler_not_true H :=
  match type of H with
  | context [update_handler ?x] =>
      destruct x; unfold update_handler, ret in H; simpl in H; discriminate H
  end.

(** The shape of a refresh that returns [True]: a 200 response whose body
    has an iterable [features] value, the loop run from the reset state
    [None] / [{}] without exception, and the blank fallback applied. *)
Lemma async_update_success (en : env) (w w' : world) :
  async_update en w = (Ok true, w') ->
  exists j fs w2 w3,
    env_http en = Got 200 (BodyOk j) /\
    body_features j = Ok fs /\
    process_features fs w2 = (Ok tt, w3) /\
    e_state (w_ent w2) = JNull /\
    e_updates (w_ent w2) = UDict [] /\
    w_reqs w3 = w_reqs w2 /\
    e_updates (w_ent w') = e_updates (w_ent w3) /\
    e_state (w_ent w') =
      (if truthy (e_state (w_ent w3)) then e_state (w_ent w3) else JStr " ").
Proof.
  intro H; unfold async_update, bind, get_ent, lift, ret in H; cbn beta iota in H.
  destruct (resolve_lat_long en (w_ent w)) as [lat lon].
  destruct (negb (truthy_coord lat) || negb (truthy_coord lon)); [discriminate|].
  destruct lat as [la|], lon as [lo|]; try discriminate.
  destruct (build_params en (w_ent w) la lo) as [p|x]; [|discriminate].
  assert (H' : try_except (fetch_and_project en (endpoint (w_ent w)) p)
                 update_handler (open_session w) = (Ok true, w')).
  { unfold open_session; destruct (e_websession (w_ent w)); simpl in H; exact H. }
  clear H; unfold try_except, fetch_and_project, handle_response, bind, issue in H'.
  destruct (env_http en) as [x|status body] eqn:Eh; simpl in H'; [handler_not_true H'|].
  destruct (Z.eqb status 200) eqn:Es; simpl in H'; [|unfold ret in H'; discriminate].
  apply Z.eqb_eq in Es; subst status.
  destruct body as [j|x]; simpl in H'; [|handler_not_true H'].
  unfold modify_ent, lift, get_ent, ret in H'; simpl in H'.
  destruct (py_get j "features" (JArr [])) as [feats|x] eqn:Efe; simpl in H';
    [|handler_not_true H'].
  destruct (py_iter feats) as [fs|x] eqn:Eit; simpl in H'; [|handler_not_true H'].
  match type of H' with
  | context [process_features fs ?w2] =>
      destruct (process_features fs w2) as [[[]|x] w3] eqn:Hpf
  end; simpl in H'; [|handler_not_true H'].
  inversion H'; subst w'; clear H'.
  exists j, fs; eexists; exists w3.
  split; [reflexivity|].
  split; [unfold body_features; rewrite Efe; exact Eit|]; split; [exact Hpf|].
  split; [reflexivity|]; split; [reflexivity|].
  match type of Hpf with
  | process_features _ ?w2 = _ =>
      destruct (process_features_ok fs w2 w3 [] eq_refl Hpf)
        as [d' [_ [_ [_ [Hr _]]]]]
  end.
  split; [exact Hr|]; split; reflexivity.
Qed.

(** What a refresh returning [True] leaves: the [updates] dict is the
    projection of the returned features, the state is the first complete
    headline or the blank placeholder. *)
Lemma poll_result (en : env) (w w' : world) (j : json) (F2 : list json) :
  env_http en = Got 200 (BodyOk j) ->
  body_features j = Ok F2 ->
  async_update en w = (Ok true, w') ->
  exists d,
    e_updates (w_ent w') = UDict d /\
    (forall k, dict_lookup k d = projection F2 k) /\
    e_state (w_ent w') = match primary F2 with Some h => h | None => JStr " " end /\
    (forall f h s, In f F2 -> feature_fields f = Some (h, s) ->
                   truthy h && truthy s = true -> key_norm s <> None).
Proof.
  intros Eh Ebf Hrun.
  destruct (async_update_success en w w' Hrun)
    as [j' [fs [w2 [w3 [Eh' [Ebf' [Hpf [Hs2 [Hu2 [_ [Hu' Hs']]]]]]]]]]].
  rewrite Eh in Eh'; inversion Eh'; subst j'.
  rewrite Ebf in Ebf'; inversion Ebf'; subst fs.
  destruct (process_features_ok F2 w2 w3 [] Hu2 Hpf)
    as [d [Hd [Hl [Hs3 [_ Hk]]]]].
  exists d; split; [congruence|]; split; [exact Hl|]; split; [|exact Hk].
  rewrite Hs', Hs3, Hs2; simpl.
  destruct (primary F2) as [h|] eqn:Ep; [|reflexivity].
  rewrite (primary_truthy F2 h Ep); reflexivity.
Qed.

Lemma body_features_array (kvs : list (string * json)) (F2 : list json) :
  obj_get kvs "features" = Some (JArr F2) -> body_features (JObj kvs) = Ok F2.
Proof. intro H; unfold body_features, py_get; rewrite H; reflexivity. Qed.

(** ** Lemmas: what a computation leaves alone *)

Lemma keeps_ret {A B} (obs : world -> B) (a : A) : keeps obs (ret a).
Proof. intro w; reflexivity. Qed.

Lemma keeps_raise {A B} (obs : world -> B) (x : exn) : keeps obs (@raise A x).
Proof. intro w; reflexivity. Qed.

Lemma keeps_lift {A B} (obs : world -> B) (r : res A) : keeps obs (lift r).
Proof. intro w; reflexivity. Qed.

Lemma keeps_get_ent {B} (obs : world -> B) : keeps obs get_ent.
Proof. intro w; reflexivity. Qed.

Lemma keeps_bind {A C B} (obs : world -> B) (m : M A) (k : A -> M C) :
  keeps obs m -> (forall a, keeps obs (k a)) -> keeps obs (bind m k).
Proof.
  intros Hm Hk w; unfold bind.
  destruct (m w) as [[a|x] w'] eqn:E; simpl.
  - rewrite Hk, <- (Hm w), E; reflexivity.
  - rewrite <- (Hm w), E; reflexivity.
Qed.

Lemma keeps_try {A B} (obs : world -> B) (m : M A) (h : exn -> option (M A)) :
  keeps obs m -> (forall x k, h x = Some k -> keeps obs k) ->
  keeps obs (try_except m h).
Proof.
  intros Hm Hh w; unfold try_except.
  destruct (m w) as [[a|x] w'] eqn:E.
  - simpl; rewrite <- (Hm w), E; reflexivity.
  - destruct (h x) as [k|] eqn:Ex; simpl.
    + rewrite (Hh x k Ex), <- (Hm w), E; reflexivity.
    + rewrite <- (Hm w), E; reflexivity.
Qed.

Lemma keeps_modify {B} (obs : world -> B) (f : entity -> entity) :
  (forall w, obs {| w_ent := f (w_ent w); w_reqs := w_reqs w |} = obs w) ->
  keeps obs (modify_ent f).
Proof. intros Hf w; apply Hf. Qed.

Ltac keeps_step :=
  match goal with
  | |- keeps _ (bind _ _) => apply keeps_bind; [|intro]
  | |- keeps _ (ret _) => apply keeps_ret
  | |- keeps _ (raise _) => apply keeps_raise
  | |- keeps _ (lift _) => apply keeps_lift
  | |- keeps _ get_ent => apply keeps_get_ent
  | |- keeps _ (modify_ent _) => apply keeps_modify; intro; reflexivity
  | |- keeps _ (try_except _ _) =>
      apply keeps_try; [|intros ? ? ?Hh; destruct_handler Hh]
  | |- keeps _ (if ?b then _ else _) => destruct b
  | |- keeps _ (match ?x with _ => _ end) => destruct x
  end
with destruct_handler Hh :=
  match type of Hh with
  | update_handler ?x = Some _ =>
      destruct x; simpl in Hh; try discriminate Hh; inversion Hh; subst
  end.

Lemma record_feature_keeps_reqs (f : json) : keeps w_reqs (record_feature f).
Proof. unfold record_feature, updates_setitem; repeat keeps_step. Qed.

Lemma record_feature_keeps_throttle (f : json) : keeps throttle_of (record_feature f).
Proof. unfold record_feature, updates_setitem; repeat keeps_step. Qed.

Lemma process_features_keeps_reqs (fs : list json) : keeps w_reqs (process_features fs).
Proof.
  induction fs as [|f fs IH]; simpl; [apply keeps_ret|].
  apply keeps_bind; [apply record_feature_keeps_reqs|intros _; exact IH].
Qed.

Lemma process_features_keeps_throttle (fs : list json) :
  keeps throttle_of (process_features fs).
Proof.
  induction fs as [|f fs IH]; simpl; [apply keeps_ret|].
  apply keeps_bind; [apply record_feature_keeps_throttle|intros _; exact IH].
Qed.

Lemma handle_response_keeps_reqs (en : env) : keeps w_reqs (handle_response en).
Proof.
  unfold handle_response; repeat keeps_step; apply process_features_keeps_reqs.
Qed.

Lemma async_update_keeps_throttle (en : env) : keeps throttle_of (async_update en).
Proof.
  unfold async_update, fetch_and_project, handle_response; repeat keeps_step;
    first [ intro; reflexivity | apply process_features_keeps_throttle ].
Qed.

(** The GET is issued exactly once by the [try] block, whatever follows. *)
Lemma fetch_reqs (en : env) (url : string) (p : params) (w : world) :
  w_reqs (snd (try_except (fetch_and_project en url p) update_handler w)) =
    (w_reqs w ++ [{| req_url := url; req_params := p; req_headers := get_headers |}])%list.
Proof.
  pose proof (keeps_try w_reqs (handle_response en) update_handler
                (handle_response_keeps_reqs en)) as K.
  assert (Kh : forall x k, update_handler x = Some k -> keeps w_reqs k)
    by (intros x k Hh; destruct_handler Hh; apply keeps_ret).
  specialize (K Kh
    {| w_ent := w_ent w;
       w_reqs := (w_reqs w ++
         [{| req_url := url; req_params := p; req_headers := get_headers |}])%list |}).
  exact K.
Qed.

(** A refresh body issues at most one request. *)
Lemma async_update_reqs (en : env) (w : world) :
  w_reqs (snd (async_update en w)) = w_reqs w \/
  exists r, w_reqs (snd (async_update en w)) = (w_reqs w ++ [r])%list.
Proof.
  destruct (truthy_coord (fst (resolve_lat_long en (w_ent w)))) eqn:Ela;
    [|rewrite async_update_unresolved by auto; left; reflexivity].
  destruct (truthy_coord (snd (resolve_lat_long en (w_ent w)))) eqn:Elo;
    [|rewrite async_update_unresolved by auto; left; reflexivity].
  destruct (resolve_lat_long en (w_ent w)) as [lat lon] eqn:Hres; simpl in *.
  destruct (truthy_coord_some _ Ela) as [la ->].
  destruct (truthy_coord_some _ Elo) as [lo ->].
  destruct (build_params en (w_ent w) la lo) as [p|x] eqn:Hp.
  - rewrite (async_update_resolved en w la lo p Hres Ela Elo Hp).
    right; eexists; rewrite fetch_reqs, open_session_reqs; reflexivity.
  - left; unfold async_update, bind, get_ent; cbn beta iota.
    rewrite Hres, Ela, Elo; simpl; unfold lift; rewrite Hp; reflexivity.
Qed.

(** A throttled call: the method does not run and nothing changes. *)
Lemma refresh_throttled (en : env) (w : world) (last : Z) :
  e_throttle (w_ent w) = Some last ->
  env_utc en - last <= MIN_TIME_BETWEEN_UPDATES ->
  refresh en w = (Ok None, w).
Proof.
  intros Hl Ht; unfold refresh, throttle, bind, get_ent; cbn beta iota.
  rewrite Hl; destruct (Z.gtb_spec (env_utc en - last) MIN_TIME_BETWEEN_UPDATES);
    [lia|reflexivity].
Qed.

(** An unthrottled call: the call time is recorded, then the body runs. *)
Lemma refresh_runs (en : env) (w : world) :
  (e_throttle (w_ent w) = None \/
   exists last, e_throttle (w_ent w) = Some last /\
                MIN_TIME_BETWEEN_UPDATES < env_utc en - last) ->
  refresh en w =
    (let w1 := {| w_ent := set_throttle (Some (env_utc en)) (w_ent w);
                  w_reqs := w_reqs w |} in
     match async_update en w1 with
     | (Ok b, w') => (Ok (Some b), w')
     | (Raise x, w') => (Raise x, w')
     end).
Proof.
  intro H; unfold refresh, throttle; unfold bind at 1, get_ent; cbn beta iota.
  destruct H as [H|[last [H Hlt]]]; rewrite H.
  - reflexivity.
  - destruct (Z.gtb_spec (env_utc en - last) MIN_TIME_BETWEEN_UPDATES); [|lia].
    reflexivity.
Qed.

Lemma refresh_ran (en : env) (w : world) :
  (e_throttle (w_ent w) = None \/
   exists last, e_throttle (w_ent w) = Some last /\
                MIN_TIME_BETWEEN_UPDATES < env_utc en - last) ->
  fst (refresh en w) <> Ok None /\
  throttle_of (snd (refresh en w)) = Some (env_utc en) /\
  (length (w_reqs (snd (refresh en w))) <= length (w_reqs w) + 1)%nat.
Proof.
  intro H; rewrite (refresh_runs en w H); cbv zeta.
  set (w1 := {| w_ent := set_throttle (Some (env_utc en)) (w_ent w);
                w_reqs := w_reqs w |}).
  pose proof (async_update_keeps_throttle en w1) as Kt.
  pose proof (async_update_reqs en w1) as Kr.
  destruct (async_update en w1) as [[b|x] w'] eqn:E; simpl in *;
    (split; [discriminate|]); (split; [exact Kt|]);
    (destruct Kr as [Kr|[r Kr]]; rewrite Kr; simpl;
     [lia|rewrite length_app; simpl; lia]).
Qed.

Lemma refresh_reqs (en : env) (w : world) :
  (length (w_reqs (snd (refresh en w))) <= length (w_reqs w) + 1)%nat.
Proof.
  destruct (e_throttle (w_ent w)) as [last|] eqn:Hl.
  - destruct (Z.lt_ge_cases MIN_TIME_BETWEEN_UPDATES (env_utc en - last)).
    + apply refresh_ran; right; eauto.
    + rewrite (refresh_throttled en w last Hl) by lia; simpl; lia.
  - apply refresh_ran; left; exact Hl.
Qed.

Lemma record_feature_keeps_mode (f : json) : keeps mode_of (record_feature f).
Proof. unfold record_feature, updates_setitem; repeat keeps_step. Qed.

Lemma process_features_keeps_mode (fs : list json) : keeps mode_of (process_features fs).
Proof.
  induction fs as [|f fs IH]; simpl; [apply keeps_ret|].
  apply keeps_bind; [apply record_feature_keeps_mode|intros _; exact IH].
Qed.

Lemma refresh_keeps_mode (en : env) : keeps mode_of (refresh en).
Proof.
  unfold refresh, throttle, async_update, fetch_and_project, handle_response;
    repeat keeps_step;
    first [ intro; reflexivity | apply process_features_keeps_mode ].
Qed.

(** [well_formed] holds from construction on and no refresh breaks it. *)
Lemma init_entity_well_formed (cfg : config) : well_formed (init_entity cfg).
Proof. reflexivity. Qed.

Lemma refresh_well_formed (en : env) (w : world) :
  well_formed (w_ent w) -> well_formed (w_ent (snd (refresh en w))).
Proof.
  unfold well_formed; intro H.
  pose proof (refresh_keeps_mode en w) as K; unfold mode_of in K.
  inversion K as [[Ha Hf]]; rewrite Ha, Hf; exact H.
Qed.

(** ** Claims *)

(** C3: when the fetch fails (timeout or transport error of the request or
    of the body read, or a status other than 200), the refresh returns
    [False] and the exposed state and [updates] are those it had before. *)
Theorem C3_failure_preserves_snapshot (en : env) (w : world) :
  well_formed (w_ent w) ->
  fetch_fails (env_http en) ->
  fst (async_update en w) = Ok false /\
  snapshot (snd (async_update en w)) = snapshot w.
Proof.
  intros Hwf Hf.
  destruct (truthy_coord (fst (resolve_lat_long en (w_ent w)))) eqn:Ela;
    [|rewrite async_update_unresolved by auto; auto].
  destruct (truthy_coord (snd (resolve_lat_long en (w_ent w)))) eqn:Elo;
    [|rewrite async_update_unresolved by auto; auto].
  destruct (resolve_lat_long en (w_ent w)) as [lat lon] eqn:Hres; simpl in *.
  destruct (truthy_coord_some _ Ela) as [la ->].
  destruct (truthy_coord_some _ Elo) as [lo ->].
  destruct (build_params_ok en (w_ent w) la lo Hwf) as [p Hp].
  rewrite (async_update_resolved en w la lo p Hres Ela Elo Hp).
  rewrite fetch_failure_caught by exact Hf; split; [reflexivity|].
  apply open_session_snapshot.
Qed.

(** C8: with a zone reference and no static location, when the registry
    has no state for the zone or the zone has no latitude or no longitude
    attribute, the refresh returns [False] before any request is issued and
    the world (entity and request log) is left as it was. *)
Theorem C8_zone_lookup_failure (en : env) (w : world) (z : string) :
  e_location (w_ent w) = None ->
  e_zone (w_ent w) = Some z ->
  (env_states en z = None \/
   exists zs, env_states en z = Some zs /\
              (zs_latitude zs = None \/ zs_longitude zs = None)) ->
  async_update en w = (Ok false, w).
Proof.
  intros Hloc Hz Hst; apply async_update_unresolved; left.
  unfold resolve_lat_long; rewrite Hloc.
  destruct (truthy_str (e_zone (w_ent w))); [|reflexivity].
  unfold get_zone_lat_long; rewrite Hz.
  destruct Hst as [-> | [zs [-> [Hl|Hl]]]]; [reflexivity| |].
  - rewrite Hl; reflexivity.
  - rewrite Hl, orb_true_r; reflexivity.
Qed.

Lemma truthy_coord_zero (q : Q) : (q == 0)%Q -> truthy_coord (Some q) = false.
Proof. intro H; simpl; apply Qeq_bool_iff in H; rewrite H; reflexivity. Qed.

(** C10: a latitude or longitude equal to 0, from the static location or
    from the zone's attributes, counts as unresolved: the refresh returns
    [False] without issuing a request and the world is unchanged. *)
Theorem C10_zero_coordinate_aborts (en : env) (w : world) :
  (exists l, e_location (w_ent w) = Some l /\
             (loc_latitude l == 0 \/ loc_longitude l == 0)%Q) \/
  (e_location (w_ent w) = None /\
   exists z zs, e_zone (w_ent w) = Some z /\ env_states en z = Some zs /\
     ((exists q, zs_latitude zs = Some q /\ (q == 0)%Q) \/
      (exists q, zs_longitude zs = Some q /\ (q == 0)%Q))) ->
  async_update en w = (Ok false, w).
Proof.
  intros [[l [Hl [H0|H0]]] | [Hl [z [zs [Hz [Hst [[q [Hq H0]]|[q [Hq H0]]]]]]]]];
    apply async_update_unresolved; unfold resolve_lat_long; rewrite Hl.
  - left; apply truthy_coord_zero; exact H0.
  - right; apply truthy_coord_zero; exact H0.
  - left. destruct (truthy_str (e_zone (w_ent w))); [|reflexivity].
    unfold get_zone_lat_long; rewrite Hz, Hst, Hq, (truthy_coord_zero q H0).
    reflexivity.
  - left. destruct (truthy_str (e_zone (w_ent w))); [|reflexivity].
    unfold get_zone_lat_long; rewrite Hz, Hst, Hq, (truthy_coord_zero q H0).
    rewrite orb_true_r; reflexivity.
Qed.

(** C5: after a successful poll, [updates] is exactly the projection of the
    returned features (sent to headline, last write wins), whatever the
    entity held before: nothing of an earlier snapshot survives. *)
Theorem C5_updates_replaced (en : env) (w w' : world)
  (kvs : list (string * json)) (F2 : list json) :
  env_http en = Got 200 (BodyOk (JObj kvs)) ->
  obj_get kvs "features" = Some (JArr F2) ->
  async_update en w = (Ok true, w') ->
  exists d, e_updates (w_ent w') = UDict d /\
            forall k, dict_lookup k d = projection F2 k.
Proof.
  intros Eh Ef Hrun.
  destruct (poll_result en w w' (JObj kvs) F2 Eh (body_features_array kvs F2 Ef) Hrun)
    as [d [Hd [Hl _]]].
  exists d; split; assumption.
Qed.

(** C6 (as amended): after a successful poll, the state is the headline of
    the first feature whose [properties.headline] and [properties.sent] are
    both present with a truthy value (not null, not empty), and [updates]
    has an entry under the sent value of every such feature. *)
Theorem C6_primary_headline (en : env) (w w' : world)
  (kvs : list (string * json)) (F2 : list json) :
  env_http en = Got 200 (BodyOk (JObj kvs)) ->
  obj_get kvs "features" = Some (JArr F2) ->
  async_update en w = (Ok true, w') ->
  e_state (w_ent w') = match primary F2 with Some h => h | None => JStr " " end /\
  exists d, e_updates (w_ent w') = UDict d /\
    forall f h s, In f F2 -> feature_fields f = Some (h, s) ->
      truthy h && truthy s = true -> exists v, dict_lookup s d = Some v.
Proof.
  intros Eh Ef Hrun.
  destruct (poll_result en w w' (JObj kvs) F2 Eh (body_features_array kvs F2 Ef) Hrun)
    as [d [Hd [Hl [Hs Hk]]]].
  split; [exact Hs|]. exists d; split; [exact Hd|].
  intros f h s Hin Hf Hc; rewrite Hl; unfold projection.
  destruct (proj_from F2 s None) as [v|] eqn:Ev; [eauto|].
  exfalso; apply (proj_from_hit F2 f h s s Hin Hf Hc) with (acc := None); [|exact Ev].
  apply same_key_refl; exact (Hk f h s Hin Hf Hc).
Qed.

(** C7: in a successful poll, features whose headline or sent is missing
    (absent, null, or otherwise falsy) play no part: [updates] and the state
    are what the complete features alone give.  A 200 body without a
    [features] key is a successful poll with no alerts: [True] is returned,
    the state is the blank placeholder and [updates] the empty dict. *)
Theorem C7_partial_features_skipped (en : env) (w : world)
  (kvs : list (string * json)) (la lo : Q) :
  well_formed (w_ent w) ->
  resolve_lat_long en (w_ent w) = (Some la, Some lo) ->
  truthy_coord (Some la) = true -> truthy_coord (Some lo) = true ->
  env_http en = Got 200 (BodyOk (JObj kvs)) ->
  (forall F2 w', obj_get kvs "features" = Some (JArr F2) ->
     async_update en w = (Ok true, w') ->
     exists d, e_updates (w_ent w') = UDict d /\
       (forall k, dict_lookup k d = projection (filter complete F2) k) /\
       e_state (w_ent w') =
         match primary (filter complete F2) with Some h => h | None => JStr " " end) /\
  (obj_get kvs "features" = None ->
     exists w', async_update en w = (Ok true, w') /\
                snapshot w' = (JStr " ", UDict [])).
Proof.
  intros Hwf Hres Hla Hlo Eh; split.
  - intros F2 w' Ef Hrun.
    destruct (poll_result en w w' (JObj kvs) F2 Eh (body_features_array kvs F2 Ef) Hrun)
      as [d [Hd [Hl [Hs _]]]].
    exists d; split; [exact Hd|]; split.
    + intro k; rewrite Hl; unfold projection; symmetry; apply proj_from_filter.
    + rewrite primary_filter; exact Hs.
  - intro Ef.
    destruct (build_params_ok en (w_ent w) la lo Hwf) as [p Hp].
    rewrite (async_update_resolved en w la lo p Hres Hla Hlo Hp).
    unfold try_except, fetch_and_project, handle_response, bind, issue, modify_ent,
      lift, get_ent, ret.
    rewrite Eh; simpl. unfold py_get; rewrite Ef; simpl.
    eexists; split; reflexivity.
Qed.

(** C1 (as amended): with a forecast horizon [H] the request carries both
    [start] and [end]: [start] is local midnight of the day before the
    current one (the current wall clock minus one day, truncated to its
    date) with the local UTC offset, and [end] is [H + 1] days after it;
    the bare endpoint is used.  Without a horizon neither parameter is sent
    and the [/active] endpoint is used. *)
Theorem C1_forecast_window (en : env) (w : world) :
  well_formed (w_ent w) ->
  (forall H, e_forecast_days (w_ent w) = Some H -> 1 <= H <= 5) ->
  truthy_coord (fst (resolve_lat_long en (w_ent w))) = true ->
  truthy_coord (snd (resolve_lat_long en (w_ent w))) = true ->
  exists r, w_reqs (snd (async_update en w)) = (w_reqs w ++ [r])%list /\
    match e_forecast_days (w_ent w) with
    | Some H =>
        req_url r = NWS_API_ENDPOINT /\
        exists start end_,
          param_lookup PARAM_START (req_params r) = Some (PIso start) /\
          param_lookup PARAM_END (req_params r) = Some (PIso end_) /\
          dt_local start = (env_now_local en / SECONDS_PER_DAY - 1) * SECONDS_PER_DAY /\
          dt_offset start = env_utc_offset en /\
          dt_instant end_ - dt_instant start = (H + 1) * SECONDS_PER_DAY
    | None =>
        req_url r = NWS_API_ENDPOINT ++ "/active" /\
        param_lookup PARAM_START (req_params r) = None /\
        param_lookup PARAM_END (req_params r) = None
    end.
Proof.
  intros Hwf Hrange Ela Elo.
  destruct (resolve_lat_long en (w_ent w)) as [lat lon] eqn:Hres; simpl in *.
  destruct (truthy_coord_some _ Ela) as [la ->].
  destruct (truthy_coord_some _ Elo) as [lo ->].
  destruct (build_params_ok en (w_ent w) la lo Hwf) as [p Hp].
  rewrite (async_update_resolved en w la lo p Hres Ela Elo Hp).
  rewrite fetch_reqs, open_session_reqs.
  eexists; split; [reflexivity|]; simpl.
  unfold endpoint; rewrite Hwf.
  destruct (e_forecast_days (w_ent w)) as [H|] eqn:Hf.
  - assert (HH : 1 <= H <= 5) by (apply Hrange; reflexivity).
    assert (Hn : truthy_int (Some H) = true)
      by (simpl; destruct (Z.eqb_spec H 0); [lia|reflexivity]).
    rewrite Hn; simpl; split; [reflexivity|].
    rewrite (build_params_forecast en (w_ent w) la lo H Hwf Hf ltac:(lia)) in Hp.
    inversion Hp; subst p; clear Hp.
    unfold forecast_window; simpl.
    do 2 eexists; split; [reflexivity|]; split; [reflexivity|].
    simpl; unfold dt_instant, SECONDS_PER_DAY; simpl.
    split; [|split; [reflexivity|lia]].
    replace (env_now_local en - 86400) with (env_now_local en + (-1) * 86400) by lia.
    rewrite Z.div_add by lia; lia.
  - simpl; split; [reflexivity|].
    assert (Ha : e_active_only (w_ent w) = true) by (rewrite Hwf, Hf; reflexivity).
    rewrite (build_params_active en (w_ent w) la lo Ha) in Hp.
    inversion Hp; subst p; split; reflexivity.
Qed.

(** C2: the state of a freshly constructed entity, which has not completed
    a poll, is the empty string: a falsy value, not a non-empty
    placeholder. *)
Theorem C2_initial_state_empty (cfg : config) :
  e_state (init_entity cfg) = JStr "" /\ truthy (e_state (init_entity cfg)) = false.
Proof. split; reflexivity. Qed.

(** After a successful poll with no complete feature the state is the
    single blank [" "]. *)
Lemma blank_after_empty_poll (en : env) (w w' : world)
  (kvs : list (string * json)) (F2 : list json) :
  env_http en = Got 200 (BodyOk (JObj kvs)) ->
  obj_get kvs "features" = Some (JArr F2) ->
  primary F2 = None ->
  async_update en w = (Ok true, w') ->
  e_state (w_ent w') = JStr " ".
Proof.
  intros Eh Ef Hp Hrun.
  destruct (poll_result en w w' (JObj kvs) F2 Eh (body_features_array kvs F2 Ef) Hrun)
    as [d [_ [_ [Hs _]]]].
  rewrite Hs, Hp; reflexivity.
Qed.

(** C4: without a forecast horizon the query parameters are exactly
    [message_type] (the comma-joined message types), [severity] (the
    comma-joined severities) and [point] (["lat,lon"]), with no [start] or
    [end]; the headers are exactly the [User-Agent] and
    [Accept: application/geo+json]. *)
Theorem C4_query_builder (cfg : config) (en : env) (la lo : Q) :
  cfg_forecast_days cfg = None ->
  build_params en (init_entity cfg) la lo =
    Ok [(PARAM_MESSAGE_TYPE, PStr (py_join "," (cfg_message_type cfg)));
        (PARAM_SEVERITY, PStr (py_join "," (cfg_severity cfg)));
        (PARAM_POINT, PStr (float_str la ++ "," ++ float_str lo))] /\
  get_headers = [("User-Agent", "Home Assistant"); ("Accept", "application/geo+json")].
Proof.
  intro H; split; [|reflexivity].
  unfold build_params, init_entity; simpl; rewrite H; reflexivity.
Qed.

(** C9 (as amended): of two calls of the decorated refresh less than
    [MIN_TIME_BETWEEN_UPDATES] apart, the second is a no-op (returns [None],
    changes nothing) whenever the first one ran; in every case the two
    together issue at most one request. *)
Theorem C9_throttle_window (en1 en2 : env) (w0 : world) :
  env_utc en2 - env_utc en1 < MIN_TIME_BETWEEN_UPDATES ->
  (fst (refresh en1 w0) <> Ok None ->
     refresh en2 (snd (refresh en1 w0)) = (Ok None, snd (refresh en1 w0))) /\
  (length (w_reqs (snd (refresh en2 (snd (refresh en1 w0))))) <=
     length (w_reqs w0) + 1)%nat.
Proof.
  intro Ht.
  assert (Hran : (e_throttle (w_ent w0) = None \/
                  exists last, e_throttle (w_ent w0) = Some last /\
                               MIN_TIME_BETWEEN_UPDATES < env_utc en1 - last) ->
     (fst (refresh en1 w0) <> Ok None ->
        refresh en2 (snd (refresh en1 w0)) = (Ok None, snd (refresh en1 w0))) /\
     (length (w_reqs (snd (refresh en2 (snd (refresh en1 w0))))) <=
        length (w_reqs w0) + 1)%nat).
  { intro H; destruct (refresh_ran en1 w0 H) as [_ [Ht1 Hq1]].
    assert (Hno : refresh en2 (snd (refresh en1 w0)) = (Ok None, snd (refresh en1 w0)))
      by (apply (refresh_throttled en2 _ (env_utc en1)); [exact Ht1|lia]).
    split; [intros _; exact Hno|]; rewrite Hno; exact Hq1. }
  destruct (e_throttle (w_ent w0)) as [last|] eqn:Hl; [|apply Hran; left; reflexivity].
  destruct (Z.lt_ge_cases MIN_TIME_BETWEEN_UPDATES (env_utc en1 - last)) as [Hgt|Hle].
  - apply Hran; right; eauto.
  - rewrite (refresh_throttled en1 w0 last Hl Hle); simpl.
    split; [intro C; congruence|]; apply refresh_reqs.
Qed.

(** ** Further properties of sensor.py *)

(** *** Query parameters *)

Lemma param_lookup_set (k k0 : string) (v : pval) (p : params) :
  param_lookup k (param_set k0 v p) =
    if String.eqb k k0 then Some v else param_lookup k p.
Proof.
  induction p as [|[k' v'] p IH]; simpl.
  - destruct (String.eqb k k0); reflexivity.
  - destruct (String.eqb_spec k0 k') as [<-|Hne]; simpl.
    + destruct (String.eqb k k0); reflexivity.
    + rewrite IH. destruct (String.eqb_spec k k') as [->|]; [|reflexivity].
      destruct (String.eqb_spec k' k0); [congruence|reflexivity].
Qed.

Lemma param_set_lookup_id (k : string) (v : pval) (p : params) :
  param_lookup k p = Some v -> param_set k v p = p.
Proof.
  induction p as [|[k' v'] p IH]; simpl; [discriminate|].
  destruct (String.eqb_spec k k') as [<-|]; intro H.
  - inversion H; reflexivity.
  - f_equal; apply IH; exact H.
Qed.

Lemma param_set_keys (k : string) (v : pval) (p : params) :
  map fst (param_set k v p) =
    if existsb (String.eqb k) (map fst p) then map fst p else (map fst p ++ [k])%list.
Proof.
  induction p as [|[k' v'] p IH]; simpl; [reflexivity|].
  destruct (String.eqb k k'); simpl; [reflexivity|].
  rewrite IH; destruct (existsb (String.eqb k) (map fst p)); reflexivity.
Qed.

Lemma param_set_nodup (k : string) (v : pval) (p : params) :
  NoDup (map fst p) -> NoDup (map fst (param_set k v p)).
Proof.
  intro H; rewrite param_set_keys.
  destruct (existsb (String.eqb k) (map fst p)) eqn:E; [exact H|].
  apply (Permutation_NoDup (Permutation_app_comm [k] (map fst p))); simpl.
  constructor; [|exact H].
  intro Hin.
  assert (existsb (String.eqb k) (map fst p) = true)
    by (apply existsb_exists; exists k; split; [exact Hin|apply String.eqb_refl]).
  congruence.
Qed.

(** *** The feature loop, when it raises *)

Lemma py_get_raise (d : json) (k : string) (def : json) (x : exn) :
  py_get d k def = Raise x -> x = AttributeError.
Proof. destruct d; simpl; intro H; inversion H; reflexivity. Qed.

Lemma primary_app (l1 l2 : list json) :
  primary (l1 ++ l2) = match primary l1 with Some h => Some h | None => primary l2 end.
Proof.
  induction l1 as [|f l1 IH]; simpl; [reflexivity|].
  destruct (feature_fields f) as [[h s]|]; [|exact IH].
  destruct (truthy h && truthy s); [reflexivity|exact IH].
Qed.

Lemma process_features_app (l1 l2 : list json) (w : world) :
  process_features (l1 ++ l2) w =
    bind (process_features l1) (fun _ => process_features l2) w.
Proof.
  revert w; induction l1 as [|f l1 IH]; intro w; simpl.
  - reflexivity.
  - unfold bind at 1 2 3.
    destruct (record_feature f w) as [[[]|x] w1]; [|reflexivity].
    rewrite IH; reflexivity.
Qed.

Lemma record_feature_runs (f : json) (w : world) (d : pydict) :
  feature_ok f = true -> e_updates (w_ent w) = UDict d ->
  exists w1, record_feature f w = (Ok tt, w1).
Proof.
  intros Hok Hd; unfold feature_ok, feature_fields in Hok.
  unfold record_feature, updates_setitem, bind, lift, get_ent, modify_ent, ret, raise.
  destruct (py_get f "properties" (JObj [])) as [props|x]; [|discriminate].
  destruct (py_get props "headline" JNull) as [h|x]; [|discriminate].
  destruct (py_get props "sent" JNull) as [s|x]; [|discriminate].
  destruct (truthy h && truthy s); simpl in Hok; [|eauto].
  destruct (truthy (e_state (w_ent w))); simpl; rewrite Hd;
    destruct (key_norm s); try discriminate; eauto.
Qed.

Lemma process_features_runs (fs : list json) : forall (w : world) (d : pydict),
  forallb feature_ok fs = true -> e_updates (w_ent w) = UDict d ->
  exists w', process_features fs w = (Ok tt, w').
Proof.
  induction fs as [|f fs IH]; intros w d Hok Hd; [exists w; reflexivity|].
  simpl in Hok; apply andb_prop in Hok; destruct Hok as [Hf Hfs].
  destruct (record_feature_runs f w d Hf Hd) as [w1 E1].
  destruct (record_feature_ok f w w1 d Hd E1) as [d1 [Hd1 _]].
  destruct (IH w1 d1 Hfs Hd1) as [w' E'].
  exists w'; simpl; unfold bind; rewrite E1; exact E'.
Qed.

Lemma record_feature_fails (f : json) (w : world) (d : pydict) :
  feature_ok f = false -> e_updates (w_ent w) = UDict d ->
  exists x w1, record_feature f w = (Raise x, w1) /\
    (x = AttributeError \/ x = TypeError) /\
    e_updates (w_ent w1) = UDict d /\
    e_state (w_ent w1) =
      (if truthy (e_state (w_ent w)) then e_state (w_ent w) else
       match primary [f] with Some h => h | None => e_state (w_ent w) end).
Proof.
  intros Hok Hd; unfold feature_ok in Hok; unfold primary.
  unfold record_feature, updates_setitem, bind, lift, get_ent, modify_ent, ret, raise.
  unfold feature_fields in *.
  destruct (py_get f "properties" (JObj [])) as [props|x] eqn:E1;
    [|apply py_get_raise in E1; subst; do 2 eexists; split; [reflexivity|];
      split; [left; reflexivity|]; split; [exact Hd|];
      destruct (truthy (e_state (w_ent w))); reflexivity].
  destruct (py_get props "headline" JNull) as [h|x] eqn:E2;
    [|apply py_get_raise in E2; subst; do 2 eexists; split; [reflexivity|];
      split; [left; reflexivity|]; split; [exact Hd|];
      destruct (truthy (e_state (w_ent w))); reflexivity].
  destruct (py_get props "sent" JNull) as [s|x] eqn:E3;
    [|apply py_get_raise in E3; subst; do 2 eexists; split; [reflexivity|];
      split; [left; reflexivity|]; split; [exact Hd|];
      destruct (truthy (e_state (w_ent w))); reflexivity].
  destruct (truthy h && truthy s) eqn:Ec; simpl in Hok; [|discriminate].
  destruct (key_norm s) eqn:Ek; [discriminate|].
  destruct (truthy (e_state (w_ent w))) eqn:Est; simpl; rewrite ?Hd; simpl;
    do 2 eexists; (split; [reflexivity|]);
    (split; [right; reflexivity|]); (split; [exact Hd|]); simpl;
    rewrite ?Est; reflexivity.
Qed.

(** The loop over [fs1 ++ g :: fs2] raises at [g] when every feature of
    [fs1] goes through and [g] does not; what [fs1] wrote stays. *)
Lemma process_features_fail_at (fs1 : list json) (g : json) (fs2 : list json)
  (w : world) (d : pydict) :
  e_updates (w_ent w) = UDict d ->
  forallb feature_ok fs1 = true -> feature_ok g = false ->
  exists x w3 d3,
    process_features (fs1 ++ g :: fs2) w = (Raise x, w3) /\
    (x = AttributeError \/ x = TypeError) /\
    e_updates (w_ent w3) = UDict d3 /\
    (forall k, dict_lookup k d3 = proj_from fs1 k (dict_lookup k d)) /\
    e_state (w_ent w3) =
      (if truthy (e_state (w_ent w)) then e_state (w_ent w) else
       match primary (fs1 ++ [g]) with Some h => h | None => e_state (w_ent w) end).
Proof.
  intros Hd Hok1 Hg.
  rewrite process_features_app.
  destruct (process_features_runs fs1 w d Hok1 Hd) as [w1 E1].
  destruct (process_features_ok fs1 w w1 d Hd E1) as [d1 [Hd1 [Hl1 [Hs1 _]]]].
  destruct (record_feature_fails g w1 d1 Hg Hd1) as [x [w3 [E3 [Hx [Hd3 Hs3]]]]].
  exists x, w3, d1.
  unfold bind; rewrite E1; simpl; unfold bind; rewrite E3.
  split; [reflexivity|]; split; [exact Hx|]; split; [exact Hd3|]; split; [exact Hl1|].
  rewrite Hs3, Hs1, primary_app.
  destruct (truthy (e_state (w_ent w))) eqn:Est; [rewrite Est; reflexivity|].
  destruct (primary fs1) as [h|] eqn:Ep.
  - rewrite (primary_truthy fs1 h Ep); reflexivity.
  - rewrite Est; reflexivity.
Qed.


(** *** The [updates] dict *)

Lemma dict_set_keys (k v : json) (d : pydict) :
  map fst (dict_set k v d) =
    if existsb (same_key k) (map fst d) then map fst d else (map fst d ++ [k])%list.
Proof.
  induction d as [|[k' v'] d IH]; simpl; [reflexivity|].
  destruct (same_key k k'); simpl; [reflexivity|].
  rewrite IH; destruct (existsb (same_key k) (map fst d)); reflexivity.
Qed.

Lemma distinct_keys_snoc (ks : list json) (k : json) :
  distinct_keys ks = true -> existsb (same_key k) ks = false ->
  distinct_keys (ks ++ [k]) = true.
Proof.
  induction ks as [|k' ks IH]; simpl; intros Hd He; [reflexivity|].
  apply andb_prop in Hd; destruct Hd as [Hn Hd].
  apply orb_false_iff in He; destruct He as [Hkk' He].
  rewrite existsb_app, IH by assumption; simpl.
  rewrite same_key_sym, Hkk'; simpl; rewrite orb_false_r, Hn; reflexivity.
Qed.

Lemma dict_set_distinct (k v : json) (d : pydict) :
  distinct_keys (map fst d) = true -> distinct_keys (map fst (dict_set k v d)) = true.
Proof.
  intro H; rewrite dict_set_keys.
  destruct (existsb (same_key k) (map fst d)) eqn:E; [exact H|].
  apply distinct_keys_snoc; assumption.
Qed.

Lemma dict_set_length (k v : json) (d : pydict) :
  (length (dict_set k v d) <= S (length d))%nat.
Proof.
  rewrite <- (length_map fst (dict_set k v d)), <- (length_map fst d), dict_set_keys.
  destruct (existsb (same_key k) (map fst d)); [lia|rewrite length_app; simpl; lia].
Qed.

(** One turn of the loop writes at most one key, and only for a complete
    feature. *)
Lemma record_feature_dict (f : json) (w w1 : world) (d : pydict) :
  e_updates (w_ent w) = UDict d ->
  record_feature f w = (Ok tt, w1) ->
  e_updates (w_ent w1) = UDict d \/
  (complete f = true /\ exists k v, e_updates (w_ent w1) = UDict (dict_set k v d)).
Proof.
  intros Hd Hrun.
  unfold record_feature, updates_setitem, bind, lift, get_ent, modify_ent, ret,
    raise in Hrun.
  unfold complete, feature_fields.
  destruct (py_get f "properties" (JObj [])) as [props|x]; [|discriminate].
  destruct (py_get props "headline" JNull) as [h|x]; [|discriminate].
  destruct (py_get props "sent" JNull) as [s|x]; [|discriminate].
  destruct (truthy h && truthy s) eqn:Ec.
  - right; split; [reflexivity|].
    destruct (truthy (e_state (w_ent w))); simpl in Hrun; rewrite Hd in Hrun;
      destruct (key_norm s); try discriminate;
      inversion Hrun; subst; simpl; eauto.
  - left; inversion Hrun; subst; exact Hd.
Qed.

Lemma process_features_dict (fs : list json) : forall (w w' : world) (d : pydict),
  e_updates (w_ent w) = UDict d ->
  process_features fs w = (Ok tt, w') ->
  exists d', e_updates (w_ent w') = UDict d' /\
    (distinct_keys (map fst d) = true -> distinct_keys (map fst d') = true) /\
    (length d' <= length d + length (filter complete fs))%nat.
Proof.
  induction fs as [|f fs IH]; intros w w' d Hd Hrun.
  - inversion Hrun; subst; exists d; split; [exact Hd|]; split; [auto|simpl; lia].
  - simpl in Hrun; unfold bind at 1 in Hrun.
    destruct (record_feature f w) as [[[]|x] w1] eqn:E1; [|discriminate].
    destruct (record_feature_dict f w w1 d Hd E1) as [H1|[Hc [k [v H1]]]].
    + destruct (IH w1 w' d H1 Hrun) as [d' [Hd' [Hk Hl]]].
      exists d'; split; [exact Hd'|]; split; [exact Hk|].
      simpl; destruct (complete f); simpl; lia.
    + destruct (IH w1 w' _ H1 Hrun) as [d' [Hd' [Hk Hl]]].
      exists d'; split; [exact Hd'|]; split.
      * intro H; apply Hk, dict_set_distinct, H.
      * simpl; rewrite Hc; simpl; pose proof (dict_set_length k v d); lia.
Qed.

(** *** What the refresh leaves alone *)

Lemma handle_response_keeps_snapshot (en : env) :
  (forall j, env_http en <> Got 200 (BodyOk j)) ->
  keeps snapshot (handle_response en).
Proof.
  intro H; unfold handle_response.
  destruct (env_http en) as [x|status body] eqn:Eh; [apply keeps_raise|].
  destruct (Z.eqb_spec status 200) as [->|Hs]; simpl; [|apply keeps_ret].
  destruct body as [j|x]; [exfalso; exact (H j eq_refl)|apply keeps_raise].
Qed.

Lemma refresh_keeps_snapshot (en : env) :
  (forall j, env_http en <> Got 200 (BodyOk j)) ->
  keeps snapshot (refresh en).
Proof.
  intro H; unfold refresh, throttle, async_update, fetch_and_project;
    repeat keeps_step;
    first [ intro; reflexivity | apply handle_response_keeps_snapshot; exact H ].
Qed.

(** A running refresh is never answered by [None]. *)
Lemma refresh_not_throttled (en : env) (w : world) :
  (e_throttle (w_ent w) = None \/
   exists last, e_throttle (w_ent w) = Some last /\
                MIN_TIME_BETWEEN_UPDATES < env_utc en - last) ->
  fst (refresh en w) <> Ok None /\ throttle_of (snd (refresh en w)) = Some (env_utc en).
Proof. intro H; destruct (refresh_ran en w H) as [A [B _]]; auto. Qed.

(** *** The platform schema *)


Lemma validate_config_inv (raw : raw_config) (cfg : config) :
  validate_config raw = Some cfg ->
  (raw_zone raw = None \/ raw_location raw = None) /\
  cfg_name cfg = with_default DEFAULT_NAME (raw_name raw) /\
  validate_in VALID_SEVERITY
    (ensure_list (with_default (YList DEFAULT_SEVERITY) (raw_severity raw)))
    = Some (cfg_severity cfg) /\
  validate_in VALID_MESSAGE_TYPE
    (ensure_list (with_default (YList DEFAULT_MESSAGE_TYPE) (raw_message_type raw)))
    = Some (cfg_message_type cfg) /\
  validate_optional validate_forecast_days (raw_forecast_days raw)
    = Some (cfg_forecast_days cfg) /\
  validate_optional cv_entity_id (raw_zone raw) = Some (cfg_zone cfg) /\
  validate_optional validate_location (raw_location raw) = Some (cfg_location cfg) /\
  cv_icon (with_default DEFAULT_ICON (raw_icon raw)) = Some (cfg_icon cfg).
Proof.
  unfold validate_config; intro H.
  assert (Hx : raw_zone raw = None \/ raw_location raw = None)
    by (destruct (raw_zone raw), (raw_location raw); auto; discriminate).
  split; [exact Hx|].
  destruct (raw_zone raw), (raw_location raw); [discriminate| | |];
  destruct (validate_in VALID_SEVERITY _), (validate_in VALID_MESSAGE_TYPE _),
    (validate_optional validate_forecast_days _), (validate_optional cv_entity_id _),
    (validate_optional validate_location _), (cv_icon _);
    try discriminate; inversion H; subst; simpl; repeat split.
Qed.



(** *** Extra properties *)



(** Without [severity], [message_type] and [name] in the configuration, the
    schema's defaults reach the added entity: its name is ["NWS Warnings"],
    its severity filter ["moderate,severe,extreme"] and its message-type
    filter ["alert,update"]. *)
Theorem validate_config_defaults (raw : raw_config) (cfg : config) :
  validate_config raw = Some cfg ->
  raw_name raw = None -> raw_severity raw = None -> raw_message_type raw = None ->
  exists e, async_setup_platform cfg = ([e], true) /\
    e_name e = "NWS Warnings" /\
    e_severity e = "moderate,severe,extreme" /\
    e_message_type e = "alert,update".
Proof.
  intros H Hn Hs Hm.
  destruct (validate_config_inv raw cfg H)
    as [_ [Hname [Hsev [Hmt _]]]].
  rewrite Hn in Hname; rewrite Hs in Hsev; rewrite Hm in Hmt.
  simpl in Hsev, Hmt; unfold validate_in in Hsev, Hmt; simpl in Hsev, Hmt.
  inversion Hsev as [Hsev']; inversion Hmt as [Hmt'].
  exists (init_entity cfg); split; [reflexivity|]; simpl.
  rewrite Hname, <- Hsev', <- Hmt'; repeat split.
Qed.

(** An accepted configuration without [zone] and without [location] gets no
    default zone: every refresh of its entity returns [False] (or [None]
    when throttled), issues no request and leaves state and [updates] as
    they were. *)
Theorem no_location_never_requests (raw : raw_config) (cfg : config)
  (en : env) (w : world) :
  validate_config raw = Some cfg ->
  raw_zone raw = None -> raw_location raw = None ->
  e_zone (w_ent w) = cfg_zone cfg -> e_location (w_ent w) = cfg_location cfg ->
  (fst (refresh en w) = Ok None \/ fst (refresh en w) = Ok (Some false)) /\
  w_reqs (snd (refresh en w)) = w_reqs w /\
  snapshot (snd (refresh en w)) = snapshot w.
Proof.
  intros H Hz Hl Hez Hel.
  destruct (validate_config_inv raw cfg H) as [_ [_ [_ [_ [_ [Hz' [Hl' _]]]]]]].
  rewrite Hz in Hz'; rewrite Hl in Hl'; simpl in Hz', Hl'.
  inversion Hz' as [Hz'']; inversion Hl' as [Hl''].
  rewrite <- Hz'' in Hez; rewrite <- Hl'' in Hel.
  assert (Hu : forall w1, e_zone (w_ent w1) = None -> e_location (w_ent w1) = None ->
                          async_update en w1 = (Ok false, w1)).
  { intros w1 Z1 L1; apply async_update_unresolved; left.
    unfold resolve_lat_long; rewrite L1, Z1; reflexivity. }
  destruct (e_throttle (w_ent w)) as [last|] eqn:Ht.
  - destruct (Z.lt_ge_cases MIN_TIME_BETWEEN_UPDATES (env_utc en - last)) as [Hgt|Hle].
    + rewrite (refresh_runs en w (or_intror (ex_intro _ last (conj Ht Hgt)))); cbv zeta.
      rewrite Hu by assumption; simpl; auto.
    + rewrite (refresh_throttled en w last Ht Hle); simpl; auto.
  - rewrite (refresh_runs en w (or_introl Ht)); cbv zeta.
    rewrite Hu by assumption; simpl; auto.
Qed.

(** [_append_time_params] when both bounds are truthy sets [start] and
    [end] and leaves every other key as it was; when either is falsy it
    returns the parameters unchanged. *)
Theorem append_time_params_lookup (p : params) (start end_ : pval) (k : string) :
  param_lookup k (append_time_params p start end_) =
    if truthy_pval start && truthy_pval end_ then
      (if String.eqb k PARAM_END then Some end_
       else if String.eqb k PARAM_START then Some start
       else param_lookup k p)
    else param_lookup k p.
Proof.
  unfold append_time_params.
  destruct (truthy_pval start && truthy_pval end_); [|reflexivity].
  rewrite !param_lookup_set; reflexivity.
Qed.

(** [_append_time_params] never duplicates a key, and applying it twice
    with the same bounds is the same as applying it once. *)
Theorem append_time_params_idempotent (p : params) (start end_ : pval) :
  NoDup (map fst p) ->
  NoDup (map fst (append_time_params p start end_)) /\
  append_time_params (append_time_params p start end_) start end_ =
    append_time_params p start end_.
Proof.
  intro Hnd; unfold append_time_params.
  destruct (truthy_pval start && truthy_pval end_); [|split; [exact Hnd|reflexivity]].
  split; [apply param_set_nodup, param_set_nodup, Hnd|].
  set (A := param_set PARAM_END end_ (param_set PARAM_START start p)).
  rewrite (param_set_lookup_id PARAM_START start A)
    by (unfold A; rewrite !param_lookup_set; reflexivity).
  apply param_set_lookup_id; unfold A; rewrite !param_lookup_set; reflexivity.
Qed.


(** With a static [location] configured, the zone registry plays no part in
    a refresh: replacing [hass.states] by any other registry gives the same
    result and the same world. *)
Theorem location_ignores_registry (en : env) (states : string -> option zone_state)
  (w : world) (l : location) :
  e_location (w_ent w) = Some l ->
  async_update {| env_states := states; env_utc := env_utc en;
                  env_now_local := env_now_local en;
                  env_utc_offset := env_utc_offset en;
                  env_http := env_http en |} w = async_update en w.
Proof.
  intro Hl; unfold async_update, bind, get_ent; cbn beta iota.
  unfold resolve_lat_long; rewrite Hl; reflexivity.
Qed.

(** The forecast window starts and ends at local midnights with the local
    offset, its start lies between one and two days before the current local
    time, and for a horizon of at least one day it contains the current
    time. *)
Theorem forecast_window_brackets_now (en : env) (n : Z) :
  1 <= n ->
  let '(start, end_) := forecast_window en n in
  dt_local start mod SECONDS_PER_DAY = 0 /\ dt_local end_ mod SECONDS_PER_DAY = 0 /\
  dt_offset start = env_utc_offset en /\ dt_offset end_ = env_utc_offset en /\
  dt_local start + SECONDS_PER_DAY <= env_now_local en <
    dt_local start + 2 * SECONDS_PER_DAY /\
  dt_local start <= env_now_local en < dt_local end_.
Proof.
  intro Hn; unfold forecast_window, SECONDS_PER_DAY; simpl.
  set (x := env_now_local en - 86400).
  pose proof (Z.div_mod x 86400 ltac:(lia)) as Hdm.
  pose proof (Z.mod_pos_bound x 86400 ltac:(lia)) as Hb.
  split; [apply Z.mod_mul; lia|].
  split.
  { replace (x / 86400 * 86400 + (n + 1) * 86400)
      with ((x / 86400 + (n + 1)) * 86400) by ring.
    apply Z.mod_mul; lia. }
  split; [reflexivity|]; split; [reflexivity|].
  unfold x in *; split; nia.
Qed.


(** A 200 response whose JSON body is not an object, or whose [features]
    value is [null], a boolean or a number, makes the refresh raise
    (outside the [except] clause) after it has reset the entity: the state
    is left [None] and [updates] the empty dict, whatever they were. *)
Theorem malformed_body_raises (en : env) (w : world) (la lo : Q) (j : json) :
  well_formed (w_ent w) ->
  resolve_lat_long en (w_ent w) = (Some la, Some lo) ->
  truthy_coord (Some la) = true -> truthy_coord (Some lo) = true ->
  env_http en = Got 200 (BodyOk j) ->
  match j with
  | JObj kvs =>
      match obj_get kvs "features" with
      | Some (JNull | JBool _ | JNum _) => True
      | _ => False
      end
  | _ => True
  end ->
  exists x, fst (async_update en w) = Raise x /\
            snapshot (snd (async_update en w)) = (JNull, UDict []).
Proof.
  intros Hwf Hres Hla Hlo Eh Hj.
  destruct (build_params_ok en (w_ent w) la lo Hwf) as [p Hp].
  rewrite (async_update_resolved en w la lo p Hres Hla Hlo Hp).
  unfold try_except, fetch_and_project, handle_response, bind, issue, modify_ent,
    lift, get_ent, ret.
  rewrite Eh; cbn -[obj_get].
  destruct j as [| | | |l|kvs]; try (eexists; split; reflexivity).
  unfold py_get; destruct (obj_get kvs "features") as [v|]; [|contradiction].
  destruct v; try contradiction; eexists; split; reflexivity.
Qed.

(** The feature loop stops at the first feature it cannot get through (a
    feature, or its [properties], that is not a dict; or a complete feature
    whose [sent] is a list or an object): the refresh raises
    [AttributeError] or [TypeError], and the entity keeps what the loop had
    written: [updates] holds the projection of the features before it, and
    the state is the first complete headline up to and including it, or
    [None]. *)
Theorem poll_stops_at_bad_feature (en : env) (w : world) (la lo : Q)
  (kvs : list (string * json)) (fs1 : list json) (g : json) (fs2 : list json) :
  well_formed (w_ent w) ->
  resolve_lat_long en (w_ent w) = (Some la, Some lo) ->
  truthy_coord (Some la) = true -> truthy_coord (Some lo) = true ->
  env_http en = Got 200 (BodyOk (JObj kvs)) ->
  obj_get kvs "features" = Some (JArr (fs1 ++ g :: fs2)) ->
  forallb feature_ok fs1 = true -> feature_ok g = false ->
  exists x d,
    fst (async_update en w) = Raise x /\ (x = AttributeError \/ x = TypeError) /\
    e_updates (w_ent (snd (async_update en w))) = UDict d /\
    (forall k, dict_lookup k d = projection fs1 k) /\
    e_state (w_ent (snd (async_update en w))) =
      match primary (fs1 ++ [g]) with Some h => h | None => JNull end.
Proof.
  intros Hwf Hres Hla Hlo Eh Ef Hok1 Hg.
  destruct (build_params_ok en (w_ent w) la lo Hwf) as [p Hp].
  rewrite (async_update_resolved en w la lo p Hres Hla Hlo Hp).
  unfold try_except, fetch_and_project, handle_response, bind, issue, modify_ent,
    lift, get_ent, ret.
  rewrite Eh; cbn -[obj_get process_features]; unfold py_get; rewrite Ef;
  cbn -[process_features].
  match goal with
  | |- context [process_features (fs1 ++ g :: fs2) ?w2] =>
      destruct (process_features_fail_at fs1 g fs2 w2 [] eq_refl Hok1 Hg)
        as [x [w3 [d3 [E3 [Hx [Hd3 [Hl3 Hs3]]]]]]];
      rewrite E3
  end.
  destruct Hx as [->| ->]; simpl; eexists; exists d3;
    (split; [reflexivity|]); (split; [auto|]); (split; [exact Hd3|]);
    (split; [exact Hl3|]); rewrite Hs3; reflexivity.
Qed.

(** After a successful poll no two keys of [updates] select the same dict
    slot, and [updates] has at most as many entries as the response has
    complete features. *)
Theorem poll_updates_distinct (en : env) (w w' : world) :
  async_update en w = (Ok true, w') ->
  exists j fs d,
    env_http en = Got 200 (BodyOk j) /\ body_features j = Ok fs /\
    e_updates (w_ent w') = UDict d /\
    distinct_keys (map fst d) = true /\
    (length d <= length (filter complete fs))%nat.
Proof.
  intro H.
  destruct (async_update_success en w w' H)
    as [j [fs [w2 [w3 [Eh [Ebf [Hpf [_ [Hu2 [_ [Hu' _]]]]]]]]]]].
  destruct (process_features_dict fs w2 w3 [] Hu2 Hpf) as [d [Hd [Hk Hl]]].
  exists j, fs, d; split; [exact Eh|]; split; [exact Ebf|].
  split; [congruence|]; split; [apply Hk; reflexivity|simpl in Hl; exact Hl].
Qed.

(** The state and [updates] of the entity change only when a refresh
    receives a 200 response with a JSON body: a throttled call, unresolved
    coordinates, a transport error, a timeout, another status or an
    unreadable body all leave them as they were. *)
Theorem refresh_snapshot_needs_json_200 (en : env) (w : world) :
  (forall j, env_http en <> Got 200 (BodyOk j)) ->
  snapshot (snd (refresh en w)) = snapshot w.
Proof. intro H; apply (refresh_keeps_snapshot en H). Qed.

(** A refresh that raises an exception has still recorded its call time:
    any call within [MIN_TIME_BETWEEN_UPDATES] after it returns [None] and
    changes nothing. *)
Theorem refresh_raise_arms_throttle (en1 en2 : env) (w : world) (x : exn) :
  fst (refresh en1 w) = Raise x ->
  env_utc en2 - env_utc en1 <= MIN_TIME_BETWEEN_UPDATES ->
  refresh en2 (snd (refresh en1 w)) = (Ok None, snd (refresh en1 w)).
Proof.
  intros Hx Ht.
  assert (Hran : e_throttle (w_ent w) = None \/
                 exists last, e_throttle (w_ent w) = Some last /\
                              MIN_TIME_BETWEEN_UPDATES < env_utc en1 - last).
  { destruct (e_throttle (w_ent w)) as [last|] eqn:Hl; [|left; reflexivity].
    destruct (Z.lt_ge_cases MIN_TIME_BETWEEN_UPDATES (env_utc en1 - last)) as [Hgt|Hle].
    - right; eauto.
    - rewrite (refresh_throttled en1 w last Hl Hle) in Hx; discriminate. }
  destruct (refresh_not_throttled en1 w Hran) as [_ Ht1].
  apply (refresh_throttled en2 _ (env_utc en1)); [exact Ht1|exact Ht].
Qed.

(** The decorated refresh returns [None] exactly when it is throttled: a
    previous call ran at most [MIN_TIME_BETWEEN_UPDATES] before. *)
Theorem refresh_none_iff_throttled (en : env) (w : world) :
  fst (refresh en w) = Ok None <->
  exists last, e_throttle (w_ent w) = Some last /\
               env_utc en - last <= MIN_TIME_BETWEEN_UPDATES.
Proof.
  split.
  - intro H; destruct (e_throttle (w_ent w)) as [last|] eqn:Hl.
    + exists last; split; [reflexivity|].
      destruct (Z.lt_ge_cases MIN_TIME_BETWEEN_UPDATES (env_utc en - last))
        as [Hgt|Hle]; [|exact Hle].
      exfalso; apply (proj1 (refresh_not_throttled en w (or_intror
        (ex_intro _ last (conj Hl Hgt))))); exact H.
    + exfalso; apply (proj1 (refresh_not_throttled en w (or_introl Hl))); exact H.
  - intros [last [Hl Hle]]; rewrite (refresh_throttled en w last Hl Hle); reflexivity.
Qed.

(** After a refresh that returns [True] the state is truthy (neither
    [None] nor empty) and [device_state_attributes] is the dict
    [{updates: <a dict>, attribution: "Data provided by NWS"}]. *)
Theorem poll_success_attributes (en : env) (w w' : world) :
  async_update en w = (Ok true, w') ->
  truthy (e_state (w_ent w')) = true /\
  exists d, device_state_attributes (w_ent w') =
    [(ATTR_UPDATES, AUpdates (UDict d));
     (ATTR_ATTRIBUTION, AStr "Data provided by NWS")].
Proof.
  intro H.
  destruct (async_update_success en w w' H)
    as [j [fs [w2 [w3 [_ [_ [Hpf [_ [Hu2 [_ [Hu' Hs']]]]]]]]]]].
  split.
  - rewrite Hs'; destruct (truthy (e_state (w_ent w3))) eqn:E; [exact E|reflexivity].
  - destruct (process_features_ok fs w2 w3 [] Hu2 Hpf) as [d [Hd _]].
    exists d; unfold device_state_attributes; rewrite Hu', Hd; reflexivity.
Qed.

(** A refresh that returns [True] has issued exactly one GET: to the
    endpoint of the entity's mode, with the query parameters built from the
    resolved coordinates and the fixed headers. *)
Theorem poll_success_one_request (en : env) (w w' : world) :
  async_update en w = (Ok true, w') ->
  exists la lo p,
    resolve_lat_long en (w_ent w) = (Some la, Some lo) /\
    build_params en (w_ent w) la lo = Ok p /\
    w_reqs w' = (w_reqs w ++
      [{| req_url := endpoint (w_ent w); req_params := p; req_headers := get_headers |}])%list.
Proof.
  intro H.
  destruct (truthy_coord (fst (resolve_lat_long en (w_ent w)))) eqn:Ela;
    [|rewrite async_update_unresolved in H by auto; discriminate].
  destruct (truthy_coord (snd (resolve_lat_long en (w_ent w)))) eqn:Elo;
    [|rewrite async_update_unresolved in H by auto; discriminate].
  destruct (resolve_lat_long en (w_ent w)) as [lat lon] eqn:Hres; simpl in *.
  destruct (truthy_coord_some _ Ela) as [la ->].
  destruct (truthy_coord_some _ Elo) as [lo ->].
  destruct (build_params en (w_ent w) la lo) as [p|x] eqn:Hp.
  - exists la, lo, p; split; [reflexivity|]; split; [exact Hp|].
    rewrite (async_update_resolved en w la lo p Hres Ela Elo Hp) in H.
    pose proof (fetch_reqs en (endpoint (w_ent w)) p (open_session w)) as Hr.
    rewrite H, open_session_reqs in Hr; exact Hr.
  - unfold async_update, bind, get_ent in H; cbn beta iota in H.
    rewrite Hres, Ela, Elo in H; simpl in H; unfold lift in H; rewrite Hp in H.
    discriminate.
Qed.

(** An exception raised while reading the body of a 200 response that the
    [except] clause does not name (a body that is not valid JSON) escapes
    the refresh, and the state and [updates] are left as they were. *)
Theorem body_error_propagates (en : env) (w : world) (la lo : Q) (x : exn) :
  well_formed (w_ent w) ->
  resolve_lat_long en (w_ent w) = (Some la, Some lo) ->
  truthy_coord (Some la) = true -> truthy_coord (Some lo) = true ->
  env_http en = Got 200 (BodyRaises x) ->
  update_handler x = None ->
  fst (async_update en w) = Raise x /\ snapshot (snd (async_update en w)) = snapshot w.
Proof.
  intros Hwf Hres Hla Hlo Eh Hx.
  destruct (build_params_ok en (w_ent w) la lo Hwf) as [p Hp].
  rewrite (async_update_resolved en w la lo p Hres Hla Hlo Hp).
  unfold try_except, fetch_and_project, handle_response, bind, issue.
  rewrite Eh; simpl; rewrite Hx; split; [reflexivity|].
  rewrite <- (open_session_snapshot w); reflexivity.
Qed.

End Sensor.

(** ** Witnesses and counterexamples *)

Local Open Scope string_scope.

Lemma C1_witness :
  let en := sample_env 0 (3 * 86400 + 3600) (Got 500 (BodyOk JNull)) in
  let w := fresh_world forecast_config in
  well_formed (w_ent w) /\
  (forall H, e_forecast_days (w_ent w) = Some H -> 1 <= H <= 5) /\
  truthy_coord (fst (resolve_lat_long en (w_ent w))) = true /\
  truthy_coord (snd (resolve_lat_long en (w_ent w))) = true /\
  exists r, w_reqs (snd (async_update sample_float_str en w)) = (w_reqs w ++ [r])%list /\
    match e_forecast_days (w_ent w) with
    | Some H =>
        req_url r = NWS_API_ENDPOINT /\
        exists start end_,
          param_lookup PARAM_START (req_params r) = Some (PIso start) /\
          param_lookup PARAM_END (req_params r) = Some (PIso end_) /\
          dt_local start = (env_now_local en / SECONDS_PER_DAY - 1) * SECONDS_PER_DAY /\
          dt_offset start = env_utc_offset en /\
          dt_instant end_ - dt_instant start = (H + 1) * SECONDS_PER_DAY
    | None =>
        req_url r = (NWS_API_ENDPOINT ++ "/active")%string /\
        param_lookup PARAM_START (req_params r) = None /\
        param_lookup PARAM_END (req_params r) = None
    end.
Proof.
  intros en w.
  assert (h2 : forall H, e_forecast_days (w_ent w) = Some H -> 1 <= H <= 5)
    by (intros H E; simpl in E; inversion E; lia).
  split; [reflexivity|]; split; [exact h2|]; split; [reflexivity|];
    split; [reflexivity|].
  apply (C1_forecast_window sample_float_str en w); [reflexivity|exact h2|reflexivity|reflexivity].
Defined.

(** At 01:00 on day 1 with [H = 1], [start] is midnight of day 0, not of
    day 1, and [end - start] is two days, not one. *)
Lemma C1_counterexample :
  let en := sample_env 0 (86400 + 3600) (Got 500 (BodyOk JNull)) in
  let w := fresh_world (sample_config (Some 1) (Some sample_location) None) in
  ~ (exists r start end_,
       w_reqs (snd (async_update sample_float_str en w)) = [r] /\
       param_lookup PARAM_START (req_params r) = Some (PIso start) /\
       param_lookup PARAM_END (req_params r) = Some (PIso end_) /\
       dt_local start = env_now_local en / SECONDS_PER_DAY * SECONDS_PER_DAY /\
       dt_instant end_ - dt_instant start = 1 * SECONDS_PER_DAY).
Proof.
  intros en w [r [start [end_ [Hr [Hs [He [H1 H2]]]]]]].
  vm_compute in Hr; inversion Hr; subst r; clear Hr.
  vm_compute in Hs; inversion Hs; subst start; clear Hs.
  vm_compute in H1; discriminate H1.
Qed.

Lemma C3_witness :
  let en := sample_env 0 0 (GetRaises TimeoutError) in
  let w := fresh_world static_config in
  well_formed (w_ent w) /\ fetch_fails (env_http en) /\
  fst (async_update sample_float_str en w) = Ok false /\
  snapshot (snd (async_update sample_float_str en w)) = snapshot w.
Proof.
  intros en w.
  assert (h2 : fetch_fails (env_http en)) by (left; reflexivity).
  split; [reflexivity|]; split; [exact h2|].
  apply (C3_failure_preserves_snapshot sample_float_str en w); [reflexivity|exact h2].
Defined.

Lemma C4_witness :
  cfg_forecast_days static_config = None /\
  build_params sample_float_str (ok_env []) (init_entity static_config) 40 (-105) =
    Ok [(PARAM_MESSAGE_TYPE, PStr (py_join "," (cfg_message_type static_config)));
        (PARAM_SEVERITY, PStr (py_join "," (cfg_severity static_config)));
        (PARAM_POINT, PStr (sample_float_str 40 ++ "," ++ sample_float_str (-105))%string)] /\
  get_headers = [("User-Agent", "Home Assistant"); ("Accept", "application/geo+json")]%string.
Proof.
  split; [reflexivity|].
  apply (C4_query_builder sample_float_str static_config (ok_env []) 40 (-105)).
  reflexivity.
Defined.

(** The world after a first successful poll that returned [alerts_F1]. *)
Lemma C5_witness :
  let w1 := snd (async_update sample_float_str (ok_env alerts_F1) (fresh_world static_config)) in
  let en := ok_env alerts_F2 in
  let w2 := snd (async_update sample_float_str en w1) in
  env_http en = Got 200 (BodyOk (JObj [("type", JStr "FeatureCollection");
                                       ("features", JArr alerts_F2)])) /\
  obj_get [("type", JStr "FeatureCollection"); ("features", JArr alerts_F2)] "features"
    = Some (JArr alerts_F2) /\
  async_update sample_float_str en w1 = (Ok true, w2) /\
  exists d, e_updates (w_ent w2) = UDict d /\
            forall k, dict_lookup k d = projection alerts_F2 k.
Proof.
  intros w1 en w2.
  split; [reflexivity|]; split; [reflexivity|]; split; [vm_compute; reflexivity|].
  apply (C5_updates_replaced sample_float_str en w1 w2
           [("type", JStr "FeatureCollection"); ("features", JArr alerts_F2)] alerts_F2);
    [reflexivity|reflexivity|vm_compute; reflexivity].
Defined.

Lemma C6_witness :
  let fs := [sample_feature "t1" "A"; sample_feature "t2" "B"] in
  let en := ok_env fs in
  let w := fresh_world static_config in
  let w' := snd (async_update sample_float_str en w) in
  env_http en = Got 200 (BodyOk (JObj [("type", JStr "FeatureCollection");
                                       ("features", JArr fs)])) /\
  obj_get [("type", JStr "FeatureCollection"); ("features", JArr fs)] "features"
    = Some (JArr fs) /\
  async_update sample_float_str en w = (Ok true, w') /\
  e_state (w_ent w') = match primary fs with Some h => h | None => JStr " " end /\
  exists d, e_updates (w_ent w') = UDict d /\
    forall f h s, In f fs -> feature_fields f = Some (h, s) ->
      truthy h && truthy s = true -> exists v, dict_lookup s d = Some v.
Proof.
  intros fs en w w'.
  split; [reflexivity|]; split; [reflexivity|]; split; [vm_compute; reflexivity|].
  apply (C6_primary_headline sample_float_str en w w'
           [("type", JStr "FeatureCollection"); ("features", JArr fs)] fs);
    [reflexivity|reflexivity|vm_compute; reflexivity].
Defined.

(** A first feature that has both fields, its headline being the empty
    string, is skipped: the state is the second feature's headline and
    ["t1"] gets no entry. *)
Lemma C6_counterexample :
  let fs := [sample_feature "t1" ""; sample_feature "t2" "B"] in
  let res_w := async_update sample_float_str (ok_env fs) (fresh_world static_config) in
  feature_fields (sample_feature "t1" "") = Some (JStr "", JStr "t1") /\
  fst res_w = Ok true /\
  e_state (w_ent (snd res_w)) = JStr "B" /\
  e_state (w_ent (snd res_w)) <> JStr "" /\
  e_updates (w_ent (snd res_w)) = UDict [(JStr "t2", JStr "B")].
Proof.
  intros fs res_w.
  split; [reflexivity|]; split; [vm_compute; reflexivity|].
  split; [vm_compute; reflexivity|]; split; [vm_compute; discriminate|].
  vm_compute; reflexivity.
Defined.

Lemma C7_witness :
  let kvs := [("type", JStr "FeatureCollection")] in
  let en := sample_env 0 0 (Got 200 (BodyOk (JObj kvs))) in
  let w := fresh_world static_config in
  well_formed (w_ent w) /\
  resolve_lat_long en (w_ent w) = (Some 40%Q, Some (-105)%Q) /\
  truthy_coord (Some 40%Q) = true /\ truthy_coord (Some (-105)%Q) = true /\
  env_http en = Got 200 (BodyOk (JObj kvs)) /\
  (forall F2 w', obj_get kvs "features" = Some (JArr F2) ->
     async_update sample_float_str en w = (Ok true, w') ->
     exists d, e_updates (w_ent w') = UDict d /\
       (forall k, dict_lookup k d = projection (filter complete F2) k) /\
       e_state (w_ent w') =
         match primary (filter complete F2) with Some h => h | None => JStr " " end) /\
  (obj_get kvs "features" = None ->
     exists w', async_update sample_float_str en w = (Ok true, w') /\
                snapshot w' = (JStr " ", UDict [])).
Proof.
  intros kvs en w.
  do 5 (split; [reflexivity|]).
  apply (C7_partial_features_skipped sample_float_str en w kvs 40 (-105));
    reflexivity.
Defined.

Lemma C8_witness :
  let en := ok_env alerts_F2 in
  let w := fresh_world missing_zone_config in
  e_location (w_ent w) = None /\ e_zone (w_ent w) = Some "zone.other"%string /\
  (env_states en "zone.other" = None \/
   exists zs, env_states en "zone.other" = Some zs /\
              (zs_latitude zs = None \/ zs_longitude zs = None)) /\
  async_update sample_float_str en w = (Ok false, w).
Proof.
  intros en w.
  assert (h3 : env_states en "zone.other" = None \/
               exists zs, env_states en "zone.other" = Some zs /\
                          (zs_latitude zs = None \/ zs_longitude zs = None))
    by (left; reflexivity).
  split; [reflexivity|]; split; [reflexivity|]; split; [exact h3|].
  apply (C8_zone_lookup_failure sample_float_str en w "zone.other");
    [reflexivity|reflexivity|exact h3].
Defined.

Lemma C9_witness :
  let en1 := sample_env 1000 0 (Got 500 (BodyOk JNull)) in
  let en2 := sample_env 1100 0 (Got 500 (BodyOk JNull)) in
  let w0 := fresh_world static_config in
  env_utc en2 - env_utc en1 < MIN_TIME_BETWEEN_UPDATES /\
  (fst (refresh sample_float_str en1 w0) <> Ok None ->
     refresh sample_float_str en2 (snd (refresh sample_float_str en1 w0)) =
       (Ok None, snd (refresh sample_float_str en1 w0))) /\
  (length (w_reqs (snd (refresh sample_float_str en2
                          (snd (refresh sample_float_str en1 w0))))) <=
     length (w_reqs w0) + 1)%nat.
Proof.
  intros en1 en2 w0.
  assert (h : env_utc en2 - env_utc en1 < MIN_TIME_BETWEEN_UPDATES)
    by (vm_compute; reflexivity).
  split; [exact h|].
  exact (C9_throttle_window sample_float_str en1 en2 w0 h).
Defined.

(** The entity last ran at time 0.  A call at 240 s is throttled; a call
    at 360 s, only 120 s after it, runs and issues a request. *)
Lemma C9_counterexample :
  let w0 := {| w_ent := set_throttle (Some 0) (init_entity static_config); w_reqs := [] |} in
  let en1 := sample_env 240 0 (Got 500 (BodyOk JNull)) in
  let en2 := sample_env 360 0 (Got 500 (BodyOk JNull)) in
  env_utc en2 - env_utc en1 < MIN_TIME_BETWEEN_UPDATES /\
  refresh sample_float_str en1 w0 = (Ok None, w0) /\
  fst (refresh sample_float_str en2 w0) = Ok (Some false) /\
  length (w_reqs (snd (refresh sample_float_str en2 w0))) = 1%nat.
Proof.
  intros w0 en1 en2.
  split; [vm_compute; reflexivity|]; split; [vm_compute; reflexivity|].
  split; vm_compute; reflexivity.
Qed.

Lemma C10_witness :
  let en := ok_env alerts_F2 in
  let w := fresh_world equator_config in
  ((exists l, e_location (w_ent w) = Some l /\
              (loc_latitude l == 0 \/ loc_longitude l == 0)%Q) \/
   (e_location (w_ent w) = None /\
    exists z zs, e_zone (w_ent w) = Some z /\ env_states en z = Some zs /\
      ((exists q, zs_latitude zs = Some q /\ (q == 0)%Q) \/
       (exists q, zs_longitude zs = Some q /\ (q == 0)%Q)))) /\
  async_update sample_float_str en w = (Ok false, w).
Proof.
  intros en w.
  assert (h : (exists l, e_location (w_ent w) = Some l /\
                         (loc_latitude l == 0 \/ loc_longitude l == 0)%Q) \/
              (e_location (w_ent w) = None /\
               exists z zs, e_zone (w_ent w) = Some z /\ env_states en z = Some zs /\
                 ((exists q, zs_latitude zs = Some q /\ (q == 0)%Q) \/
                  (exists q, zs_longitude zs = Some q /\ (q == 0)%Q))))
    by (left; eexists; split; [reflexivity|left; reflexivity]).
  split; [exact h|].
  exact (C10_zero_coordinate_aborts sample_float_str en w h).
Defined.


Lemma validate_config_defaults_witness :
  let raw := sample_raw None (Some sample_location) None in
  let cfg := static_config in
  validate_config accept_str accept_str raw = Some cfg /\
  raw_name raw = None /\ raw_severity raw = None /\ raw_message_type raw = None /\
  exists e, async_setup_platform cfg = ([e], true) /\
    e_name e = "NWS Warnings" /\
    e_severity e = "moderate,severe,extreme" /\
    e_message_type e = "alert,update".
Proof.
  intros raw cfg.
  assert (h : validate_config accept_str accept_str raw = Some cfg)
    by (vm_compute; reflexivity).
  split; [exact h|]; split; [reflexivity|]; split; [reflexivity|];
    split; [reflexivity|].
  exact (validate_config_defaults accept_str accept_str raw cfg h
           eq_refl eq_refl eq_refl).
Defined.

Lemma no_location_never_requests_witness :
  let raw := sample_raw None None None in
  let cfg := sample_config None None None in
  let en := ok_env alerts_F1 in
  let w := fresh_world cfg in
  validate_config accept_str accept_str raw = Some cfg /\
  ((fst (refresh sample_float_str en w) = Ok None \/
    fst (refresh sample_float_str en w) = Ok (Some false)) /\
   w_reqs (snd (refresh sample_float_str en w)) = w_reqs w /\
   snapshot (snd (refresh sample_float_str en w)) = snapshot w).
Proof.
  intros raw cfg en w.
  assert (h : validate_config accept_str accept_str raw = Some cfg)
    by (vm_compute; reflexivity).
  split; [exact h|].
  exact (no_location_never_requests sample_float_str accept_str accept_str
           raw cfg en w h eq_refl eq_refl eq_refl eq_refl).
Defined.

Lemma append_time_params_idempotent_witness :
  let p := get_query_params sample_float_str "moderate,severe" "alert" 40 (-105) in
  let start := PIso {| dt_local := 0; dt_offset := -25200 |} in
  let end_ := PIso {| dt_local := 259200; dt_offset := -25200 |} in
  NoDup (map fst p) /\
  (NoDup (map fst (append_time_params p start end_)) /\
   append_time_params (append_time_params p start end_) start end_ =
     append_time_params p start end_).
Proof.
  intros p start end_.
  assert (h : NoDup (map fst p))
    by (simpl; repeat constructor; simpl; intuition discriminate).
  split; [exact h|].
  exact (append_time_params_idempotent p start end_ h).
Defined.

Lemma location_ignores_registry_witness :
  let en := ok_env alerts_F1 in
  let w := fresh_world static_config in
  e_location (w_ent w) = Some sample_location /\
  async_update sample_float_str
    {| env_states := fun _ => None; env_utc := env_utc en;
       env_now_local := env_now_local en; env_utc_offset := env_utc_offset en;
       env_http := env_http en |} w = async_update sample_float_str en w.
Proof.
  intros en w.
  assert (h : e_location (w_ent w) = Some sample_location) by reflexivity.
  split; [exact h|].
  exact (location_ignores_registry sample_float_str en (fun _ => None) w
           sample_location h).
Defined.

Lemma forecast_window_brackets_now_witness :
  let en := sample_env 0 1792368000 (Got 200 (BodyOk (sample_body []))) in
  1 <= 2 /\
  let '(start, end_) := forecast_window en 2 in
  dt_local start mod SECONDS_PER_DAY = 0 /\ dt_local end_ mod SECONDS_PER_DAY = 0 /\
  dt_offset start = env_utc_offset en /\ dt_offset end_ = env_utc_offset en /\
  dt_local start + SECONDS_PER_DAY <= env_now_local en <
    dt_local start + 2 * SECONDS_PER_DAY /\
  dt_local start <= env_now_local en < dt_local end_.
Proof.
  intro en.
  assert (h : 1 <= 2) by lia.
  split; [exact h|].
  exact (forecast_window_brackets_now en 2 h).
Defined.

Lemma malformed_body_raises_witness :
  let en := sample_env 0 0 (Got 200 (BodyOk (JArr []))) in
  let w := fresh_world static_config in
  well_formed (w_ent w) /\
  resolve_lat_long en (w_ent w) = (Some 40%Q, Some (-105)%Q) /\
  exists x, fst (async_update sample_float_str en w) = Raise x /\
            snapshot (snd (async_update sample_float_str en w)) = (JNull, UDict []).
Proof.
  intros en w.
  assert (h1 : well_formed (w_ent w)) by reflexivity.
  assert (h2 : resolve_lat_long en (w_ent w) = (Some 40%Q, Some (-105)%Q))
    by reflexivity.
  split; [exact h1|]; split; [exact h2|].
  exact (malformed_body_raises sample_float_str en w 40 (-105) (JArr [])
           h1 h2 eq_refl eq_refl eq_refl I).
Defined.

Lemma poll_stops_at_bad_feature_witness :
  let fs1 := [sample_feature "2026-10-18T06:00:00-06:00" "Winter Storm Warning"] in
  let g := JNum 7 in
  let fs2 := [sample_feature "2026-10-18T07:00:00-06:00" "Flood Watch"] in
  let kvs := [("type", JStr "FeatureCollection"); ("features", JArr (fs1 ++ g :: fs2))] in
  let en := sample_env 0 0 (Got 200 (BodyOk (JObj kvs))) in
  let w := fresh_world static_config in
  forallb feature_ok fs1 = true /\ feature_ok g = false /\
  exists x d,
    fst (async_update sample_float_str en w) = Raise x /\
    (x = AttributeError \/ x = TypeError) /\
    e_updates (w_ent (snd (async_update sample_float_str en w))) = UDict d /\
    (forall k, dict_lookup k d = projection fs1 k) /\
    e_state (w_ent (snd (async_update sample_float_str en w))) =
      match primary (fs1 ++ [g]) with Some h => h | None => JNull end.
Proof.
  intros fs1 g fs2 kvs en w.
  assert (h1 : forallb feature_ok fs1 = true) by reflexivity.
  assert (h2 : feature_ok g = false) by reflexivity.
  split; [exact h1|]; split; [exact h2|].
  exact (poll_stops_at_bad_feature sample_float_str en w 40 (-105) kvs fs1 g fs2
           eq_refl eq_refl eq_refl eq_refl eq_refl eq_refl h1 h2).
Defined.

Lemma poll_updates_distinct_witness :
  let en := ok_env alerts_F2 in
  let w := fresh_world static_config in
  let w' := snd (async_update sample_float_str en w) in
  async_update sample_float_str en w = (Ok true, w') /\
  exists j fs d,
    env_http en = Got 200 (BodyOk j) /\ body_features j = Ok fs /\
    e_updates (w_ent w') = UDict d /\
    distinct_keys (map fst d) = true /\
    (length d <= length (filter complete fs))%nat.
Proof.
  intros en w w'.
  assert (h : async_update sample_float_str en w = (Ok true, w'))
    by (vm_compute; reflexivity).
  split; [exact h|].
  exact (poll_updates_distinct sample_float_str en w w' h).
Defined.

Lemma refresh_snapshot_needs_json_200_witness :
  let en := sample_env 0 0 (Got 503 (BodyOk (sample_body alerts_F1))) in
  let w := fresh_world static_config in
  (forall j, env_http en <> Got 200 (BodyOk j)) /\
  snapshot (snd (refresh sample_float_str en w)) = snapshot w.
Proof.
  intros en w.
  assert (h : forall j, env_http en <> Got 200 (BodyOk j))
    by (intros j E; discriminate E).
  split; [exact h|].
  exact (refresh_snapshot_needs_json_200 sample_float_str en w h).
Defined.

Lemma refresh_raise_arms_throttle_witness :
  let en1 := sample_env 0 0 (Got 200 (BodyOk (JArr []))) in
  let en2 := ok_env alerts_F1 in
  let w := fresh_world static_config in
  fst (refresh sample_float_str en1 w) = Raise AttributeError /\
  env_utc en2 - env_utc en1 <= MIN_TIME_BETWEEN_UPDATES /\
  refresh sample_float_str en2 (snd (refresh sample_float_str en1 w)) =
    (Ok None, snd (refresh sample_float_str en1 w)).
Proof.
  intros en1 en2 w.
  assert (h1 : fst (refresh sample_float_str en1 w) = Raise AttributeError)
    by (vm_compute; reflexivity).
  assert (h2 : env_utc en2 - env_utc en1 <= MIN_TIME_BETWEEN_UPDATES)
    by (vm_compute; discriminate).
  split; [exact h1|]; split; [exact h2|].
  exact (refresh_raise_arms_throttle sample_float_str en1 en2 w AttributeError h1 h2).
Defined.

Lemma poll_success_attributes_witness :
  let en := ok_env alerts_F2 in
  let w := fresh_world static_config in
  let w' := snd (async_update sample_float_str en w) in
  async_update sample_float_str en w = (Ok true, w') /\
  truthy (e_state (w_ent w')) = true /\
  exists d, device_state_attributes (w_ent w') =
    [(ATTR_UPDATES, AUpdates (UDict d));
     (ATTR_ATTRIBUTION, AStr "Data provided by NWS")].
Proof.
  intros en w w'.
  assert (h : async_update sample_float_str en w = (Ok true, w'))
    by (vm_compute; reflexivity).
  split; [exact h|].
  exact (poll_success_attributes sample_float_str en w w' h).
Defined.

Lemma poll_success_one_request_witness :
  let en := ok_env alerts_F1 in
  let w := fresh_world forecast_config in
  let w' := snd (async_update sample_float_str en w) in
  async_update sample_float_str en w = (Ok true, w') /\
  exists la lo p,
    resolve_lat_long en (w_ent w) = (Some la, Some lo) /\
    build_params sample_float_str en (w_ent w) la lo = Ok p /\
    w_reqs w' = (w_reqs w ++
      [{| req_url := endpoint (w_ent w); req_params := p;
          req_headers := get_headers |}])%list.
Proof.
  intros en w w'.
  assert (h : async_update sample_float_str en w = (Ok true, w'))
    by (vm_compute; reflexivity).
  split; [exact h|].
  exact (poll_success_one_request sample_float_str en w w' h).
Defined.

Lemma body_error_propagates_witness :
  let en := sample_env 0 0 (Got 200 (BodyRaises JSONDecodeError)) in
  let w := fresh_world static_config in
  update_handler JSONDecodeError = None /\
  fst (async_update sample_float_str en w) = Raise JSONDecodeError /\
  snapshot (snd (async_update sample_float_str en w)) = snapshot w.
Proof.
  intros en w.
  assert (h : update_handler JSONDecodeError = None) by reflexivity.
  split; [exact h|].
  exact (body_error_propagates sample_float_str en w 40 (-105) JSONDecodeError
           eq_refl eq_refl eq_refl eq_refl eq_refl h).
Defined.
